(** * cortx-test: REST account wrappers and remote-operations helpers

    A shallow embedding of
      - [libs/csm/rest/csm_rest_s3user.py]  (class [RestS3user]),
      - [libs/ras/ras_core_lib.py]          (class [RASCoreLib]),
      - [tests/s3/test_support_bundle.py]   (method [create_support_bundle]),
    over a small model of the Python values these functions handle.

    Every call that leaves the repository (the REST client, SSH command
    execution, the clock, the local file system, ...) is answered by a
    [world]: a function from the history of calls made so far and the
    current call to either a value or a raised exception.  The calls are
    recorded in a trace, so that statements of the form "no further command
    is executed" can be read off the trace. *)

From Stdlib Require Import String Ascii List ZArith Bool Lia DecimalString.
Import ListNotations.
Local Open Scope string_scope.
Local Open Scope Z_scope.
Local Set Warnings "-register-all".

(** ** Python values *)

(** The values that flow through the modelled functions.  A dict is an
    association list in insertion order; [VResp] is a [requests.Response]
    with its status code and the value its [json()] method yields
    ([None] when the body is not JSON and [json()] raises). *)
Inductive value : Type :=
| VNone
| VBool (b : bool)
| VInt (z : Z)
| VStr (s : string)
| VBytes (s : string)
| VTuple (vs : list value)
| VList (vs : list value)
| VDict (kvs : list (string * value))
| VResp (status_code : Z) (json : option value).

(** Exception classes that occur.  [OtherException] stands for any further
    subclass of [Exception], [OtherBaseException] for any further class
    that derives from [BaseException] only. *)
Inductive exc_class : Type :=
| KeyError | IndexError | TypeError | AttributeError | ValueError
| UnboundLocalError | FileNotFoundError
| KeyboardInterrupt | SystemExit
| OtherException (name : string)
| OtherBaseException (name : string).

(** [commons.errorcodes]: the two error codes the library raises. *)
Inductive CTError : Type :=
| CSM_REST_AUTHENTICATION_ERROR
| CSM_REST_VERIFICATION_FAILED.

(** An exception object: a builtin one with its [args] tuple, or the
    domain exception [CTException(ct_error, msg)]. *)
Inductive exn : Type :=
| PyExc (cls : exc_class) (args : list value)
| CTException (ct_error : CTError) (msg : value).

(** Outcome of running a piece of code.  [Diverge] is only produced when
    the fuel of a recursive definition runs out. *)
Inductive result (A : Type) : Type :=
| Ok (a : A)
| Raise (e : exn)
| Diverge.
Arguments Ok {A} a.
Arguments Raise {A} e.
Arguments Diverge {A}.

(** [isinstance(e, Exception)]: what an [except Exception] clause catches.
    [CTException] is taken to derive from [Exception], as user-defined
    exceptions do. *)
Definition is_Exception (e : exn) : bool :=
  match e with
  | CTException _ _ => true
  | PyExc KeyboardInterrupt _ | PyExc SystemExit _
  | PyExc (OtherBaseException _) _ => false
  | PyExc _ _ => true
  end.

(** ** Strings *)

(** [p in s] for two strings: [p] occurs as a contiguous substring. *)
Fixpoint str_contains (p s : string) : bool :=
  if String.prefix p s then true
  else match s with
       | EmptyString => false
       | String _ s' => str_contains p s'
       end.

(** [str(z)] for an integer: its decimal digits, with a leading minus
    sign for a negative one. *)
Definition str_of_Z (z : Z) : string :=
  NilZero.string_of_int (Z.to_int z).

(** ** Operations on values *)

Fixpoint assoc (k : string) (kvs : list (string * value)) : option value :=
  match kvs with
  | [] => None
  | (k', v) :: rest => if String.eqb k k' then Some v else assoc k rest
  end.

Definition has_key (k : string) (kvs : list (string * value)) : bool :=
  match assoc k kvs with Some _ => true | None => false end.

(** [requests.Response.ok]: the status is not a client or server error. *)
Definition resp_ok (status : Z) : bool :=
  negb ((400 <=? status) && (status <? 600)).

(** Truth value of an object, as [not x] and [if x:] see it. *)
Definition truthy (v : value) : bool :=
  match v with
  | VNone => false
  | VBool b => b
  | VInt z => negb (z =? 0)
  | VStr s | VBytes s => negb (String.eqb s "")
  | VTuple vs | VList vs => match vs with [] => false | _ => true end
  | VDict kvs => match kvs with [] => false | _ => true end
  | VResp st _ => resp_ok st
  end.

(** [a == b].  Booleans compare equal to the integers 0 and 1, dicts
    compare regardless of order, responses compare by identity and are
    never equal to the result of another call. *)
Fixpoint py_eq (a b : value) {struct a} : bool :=
  let fix eq_list (xs ys : list value) {struct xs} : bool :=
    match xs, ys with
    | [], [] => true
    | x :: xs', y :: ys' => py_eq x y && eq_list xs' ys'
    | _, _ => false
    end in
  let fix sub_dict (xs ys : list (string * value)) {struct xs} : bool :=
    match xs with
    | [] => true
    | (k, v) :: xs' =>
        match assoc k ys with
        | Some v' => py_eq v v' && sub_dict xs' ys
        | None => false
        end
    end in
  match a, b with
  | VNone, VNone => true
  | VBool x, VBool y => Bool.eqb x y
  | VInt x, VInt y => x =? y
  | VBool x, VInt y => Z.b2z x =? y
  | VInt x, VBool y => x =? Z.b2z y
  | VStr x, VStr y => String.eqb x y
  | VBytes x, VBytes y => String.eqb x y
  | VTuple xs, VTuple ys => eq_list xs ys
  | VList xs, VList ys => eq_list xs ys
  | VDict xs, VDict ys =>
      (length xs =? length ys)%nat && sub_dict xs ys
  | _, _ => false
  end.

Definition type_error (msg : string) : exn := PyExc TypeError [VStr msg].

(** [v[i]] for an integer literal [i >= 0]. *)
Definition getitem_int (v : value) (i : nat) : result value :=
  match v with
  | VTuple vs | VList vs =>
      match nth_error vs i with
      | Some x => Ok x
      | None => Raise (PyExc IndexError [VStr "index out of range"])
      end
  | VStr s =>
      match String.get i s with
      | Some c => Ok (VStr (String c ""))
      | None => Raise (PyExc IndexError [VStr "string index out of range"])
      end
  | VBytes s =>
      match String.get i s with
      | Some c => Ok (VInt (Z.of_nat (nat_of_ascii c)))
      | None => Raise (PyExc IndexError [VStr "index out of range"])
      end
  | VDict _ => Raise (PyExc KeyError [VInt (Z.of_nat i)])
  | _ => Raise (type_error "object is not subscriptable")
  end.

(** [v[k]] for a string literal [k]. *)
Definition getitem_str (v : value) (k : string) : result value :=
  match v with
  | VDict kvs =>
      match assoc k kvs with
      | Some x => Ok x
      | None => Raise (PyExc KeyError [VStr k])
      end
  | VTuple _ | VList _ | VStr _ | VBytes _ =>
      Raise (type_error "indices must be integers or slices, not str")
  | _ => Raise (type_error "object is not subscriptable")
  end.

(** [x in c]. *)
Definition py_in (x c : value) : result bool :=
  match c with
  | VDict kvs =>
      match x with
      | VStr k => Ok (has_key k kvs)
      | _ => Ok false
      end
  | VTuple vs | VList vs => Ok (existsb (py_eq x) vs)
  | VStr s =>
      match x with
      | VStr p => Ok (str_contains p s)
      | _ => Raise (type_error "'in <string>' requires string as left operand")
      end
  | VBytes s =>
      match x with
      | VBytes p => Ok (str_contains p s)
      | VInt n => Ok (existsb (fun c => Z.of_nat (nat_of_ascii c) =? n)
                              (list_ascii_of_string s))
      | _ => Raise (type_error "a bytes-like object is required")
      end
  | _ => Raise (type_error "argument is not iterable")
  end.

(** [len(v)]. *)
Definition py_len (v : value) : result Z :=
  match v with
  | VTuple vs | VList vs => Ok (Z.of_nat (length vs))
  | VDict kvs => Ok (Z.of_nat (length kvs))
  | VStr s | VBytes s => Ok (Z.of_nat (String.length s))
  | _ => Raise (type_error "object has no len()")
  end.

(** The elements a [for] loop or a comprehension draws from [v]. *)
Definition py_iter (v : value) : result (list value) :=
  match v with
  | VTuple vs | VList vs => Ok vs
  | VDict kvs => Ok (map (fun kv => VStr (fst kv)) kvs)
  | VStr s => Ok (map (fun c => VStr (String c "")) (list_ascii_of_string s))
  | VBytes s =>
      Ok (map (fun c => VInt (Z.of_nat (nat_of_ascii c)))
              (list_ascii_of_string s))
  | _ => Raise (type_error "object is not iterable")
  end.

(** [response.status_code] and [response.json()]. *)
Definition status_code_of (v : value) : result Z :=
  match v with
  | VResp st _ => Ok st
  | _ => Raise (PyExc AttributeError [VStr "no attribute 'status_code'"])
  end.

Definition json_of (v : value) : result value :=
  match v with
  | VResp _ (Some j) => Ok j
  | VResp _ None => Raise (PyExc ValueError [VStr "Expecting value"])
  | _ => Raise (PyExc AttributeError [VStr "no attribute 'json'"])
  end.

(** [os.path.join(a, b)] on POSIX paths. *)
Definition ends_with_slash (s : string) : bool :=
  match rev (list_ascii_of_string s) with
  | c :: _ => Ascii.eqb c "/"
  | [] => false
  end.

Definition os_path_join (a b : string) : string :=
  if String.prefix "/" b then b
  else if String.eqb a "" || ends_with_slash a then a ++ b
  else a ++ "/" ++ b.

(** ** Calls that leave the repository *)

(** One constructor per external function the modelled code calls, with
    the arguments it passes.  Keyword arguments of [execute_cmd] are kept
    as they are written at the call site. *)
Inductive call : Type :=
| rest_login (login_as : option string)
| rest_call (verb : string) (endpoint : value) (data : option value)
            (headers : value)
| update_csm_config_for_user (user_type : string) (username password : value)
| time_time
| execute_cmd (cmd : value) (kwargs : list (string * value))
| restart_pcs_resource (resource : value)
| get_s3server_service_status (service : value)
| read_file (filename local_path : value)
| copy_s3server_file (file_path : value) (local_path : string)
| time_sleep (secs : value)
| os_getcwd
| os_path_exists (path : string)
| os_remove (path : string)
| open_read (path : string)
| run_remote_cmd (cmd : string) (host : value).

(** The environment: how a call is answered given the calls made before. *)
Definition world : Type := list call -> call -> result value.

(** ** The monad of the modelled code

    A computation reads and extends the trace of external calls and reads
    and writes the fields of the object it runs on ([St]); it returns a
    value, raises, or runs out of fuel. *)
Definition M (St A : Type) : Type :=
  list call -> St -> result A * list call * St.

Section Monad.
Context {St : Type}.

Definition ret {A} (a : A) : M St A := fun tr st => (Ok a, tr, st).

Definition bind {A B} (c : M St A) (k : A -> M St B) : M St B :=
  fun tr st =>
    match c tr st with
    | (Ok a, tr', st') => k a tr' st'
    | (Raise e, tr', st') => (Raise e, tr', st')
    | (Diverge, tr', st') => (Diverge, tr', st')
    end.

Definition raise {A} (e : exn) : M St A := fun tr st => (Raise e, tr, st).

Definition diverge {A} : M St A := fun tr st => (Diverge, tr, st).

(** A pure operation that may raise. *)
Definition lift {A} (r : result A) : M St A := fun tr st => (r, tr, st).

Definition get : M St St := fun tr st => (Ok st, tr, st).

Definition put (st' : St) : M St unit := fun tr _ => (Ok tt, tr, st').

(** Perform an external call: ask the world, record the call. *)
Definition ext (w : world) (c : call) : M St value :=
  fun tr st => (w tr c, (tr ++ [c])%list, st).

(** [try: body  except <caught> as error: handler(error)]. *)
Definition try_except {A} (body : M St A) (caught : exn -> bool)
           (handler : exn -> M St A) : M St A :=
  fun tr st =>
    match body tr st with
    | (Raise e, tr', st') =>
        if caught e then handler e tr' st' else (Raise e, tr', st')
    | r => r
    end.
End Monad.

Declare Scope py_scope.
Delimit Scope py_scope with py.
Notation "x <- c ;; k" := (bind c (fun x => k))
  (at level 61, c at next level, right associativity) : py_scope.
Notation "c ;;; k" := (bind c (fun _ => k))
  (at level 61, right associativity) : py_scope.
Local Open Scope py_scope.

(** ** Builtins used by more than one module *)

Section Builtins.
(** [repr] of containers, bytes and responses is left to the
    interpreter. *)
Variable repr : value -> string.

(** [str(v)]. *)
Definition py_str (v : value) : string :=
  match v with
  | VStr s => s
  | VInt z => str_of_Z z
  | VNone => "None"
  | VBool true => "True"
  | VBool false => "False"
  | _ => repr v
  end.

(** [template.format(a1, ..., an)] for templates whose replacement fields are
    all the automatic [{}]; doubled braces stand for themselves.  Other
    field syntax does not occur in the literals of the modelled code. *)
Fixpoint str_format (t : string) (args : list value) : result string :=
  match t with
  | EmptyString => Ok EmptyString
  | String "{"%char (String "}"%char t') =>
      match args with
      | a :: args' =>
          match str_format t' args' with
          | Ok s => Ok (py_str a ++ s)
          | r => r
          end
      | [] =>
          Raise (PyExc IndexError
                   [VStr "Replacement index out of range for positional args tuple"])
      end
  | String "{"%char (String "{"%char t') =>
      match str_format t' args with
      | Ok s => Ok (String "{"%char s)
      | r => r
      end
  | String "}"%char (String "}"%char t') =>
      match str_format t' args with
      | Ok s => Ok (String "}"%char s)
      | r => r
      end
  | String "{"%char _ | String "}"%char _ =>
      Raise (PyExc ValueError [VStr "Single brace encountered in format string"])
  | String c t' =>
      match str_format t' args with
      | Ok s => Ok (String c s)
      | r => r
      end
  end.
End Builtins.

(** [error.args[0]] inside an [except ... as error] clause.  The class
    [CTException] lives in [commons/exceptions.py]; what its constructor
    leaves in [args] is the parameter [ct_args]. *)
Definition args0 (ct_args : CTError -> value -> list value) (e : exn)
  : result value :=
  let args := match e with
              | PyExc _ args => args
              | CTException code msg => ct_args code msg
              end in
  match args with
  | a :: _ => Ok a
  | [] => Raise (PyExc IndexError [VStr "tuple index out of range"])
  end.

(** Lazy [all(...)] and [any(...)] over a generator whose element test
    may raise: evaluation stops at the first deciding element. *)
Fixpoint py_all (f : value -> result bool) (l : list value) : result bool :=
  match l with
  | [] => Ok true
  | x :: l' =>
      match f x with
      | Ok true => py_all f l'
      | r => r
      end
  end.

Fixpoint py_any (f : value -> result bool) (l : list value) : result bool :=
  match l with
  | [] => Ok false
  | x :: l' =>
      match f x with
      | Ok false => py_any f l'
      | r => r
      end
  end.

(** ** [commons.constants.Rest] *)

Module const.
(** Modelled from the spec: [commons/constants.py] is not under src/;
    the spec names the response field [access_key]. *)
Definition ACCESS_KEY : string := "access_key".
(** Modelled from the spec: [commons/constants.py] is not under src/;
    the spec names the response field [secret_key]. *)
Definition SECRET_KEY : string := "secret_key".
(** Modelled from the spec: [commons/constants.py] is not under src/;
    the spec names the response field [account_name]. *)
Definition ACC_NAME : string := "account_name".
(** Modelled from the spec: [commons/constants.py] is not under src/;
    the spec names the response field [account_email]. *)
Definition ACC_EMAIL : string := "account_email".
(** Modelled from the spec: [commons/constants.py] is not under src/;
    the list response is indexed with the literal ["s3_accounts"] right
    after the membership test on this constant. *)
Definition S3_ACCOUNTS : string := "s3_accounts".
(** Modelled from the spec: [commons/constants.py] is not under src/;
    the spec gives the status codes 200 and 400. *)
Definition SUCCESS_STATUS : Z := 200.
(** Modelled from the spec: [commons/constants.py] is not under src/;
    the spec gives the status codes 200 and 400. *)
Definition BAD_REQUEST : Z := 400.
End const.

(** ** [libs/csm/rest/csm_rest_s3user.py] *)

Module RestS3user.

(** The fields of a [RestS3user] object that its methods write. *)
Record self : Type := mk_self {
  headers : value;
  recently_created_s3_account_user : value;
  recent_patch_payload : value
}.

(** [__init__]: both "recent" fields start as [None]. *)
Definition init (headers0 : value) : self :=
  mk_self headers0 VNone VNone.

(** [self.user_type]. *)
Definition user_type : list string :=
  ["valid"; "duplicate"; "invalid"; "missing"].

Definition set_recently (v : value) : M self unit :=
  st <- get ;; put (mk_self (headers st) v (recent_patch_payload st)).

Definition set_headers (v : value) : M self unit :=
  st <- get ;;
  put (mk_self v (recently_created_s3_account_user st)
               (recent_patch_payload st)).

Section Methods.
Variable w : world.
(** [args] of a [CTException] instance ([commons/exceptions.py]). *)
Variable ct_args : CTError -> value -> list value.
Variable repr : value -> string.
(** [self.config], the dict read from the CSM YAML configuration. *)
Variable config : value.
(** [commons.utils.config_utils.verify_json_response]. *)
Variable verify_json_response : value -> value -> result value.

(** [except ... as error: raise CTException(code, error.args[0])]. *)
Definition raise_CTException {A} (code : CTError) (error : exn)
  : M self A :=
  a <- lift (args0 ct_args error) ;; raise (CTException code a).

Definition except_BaseException {A} (body : M self A) (code : CTError)
  : M self A :=
  try_except body (fun _ => true) (raise_CTException code).

Definition except_Exception {A} (body : M self A) (code : CTError)
  : M self A :=
  try_except body is_Exception (raise_CTException code).

(** Modelled from the spec: the decorator
    [RestTestLib.authenticate_and_login] is not under src/; the spec
    describes it as "login before call".  It logs in as the user named
    by the [login_as] keyword, stores the resulting headers in
    [self.headers] and then runs the decorated method. *)
Definition authenticate_and_login {A} (login_as : option string)
           (body : M self A) : M self A :=
  hdrs <- ext w (rest_login login_as) ;;
  set_headers hdrs ;;;
  body.

(** [int(time.time())]. *)
Definition int_time : M self Z :=
  t <- ext w time_time ;;
  match t with
  | VInt z => ret z
  | VBool b => ret (Z.b2z b)
  | _ => raise (type_error "int() argument must be a number")
  end.

(** A read of a local variable that may not have been assigned. *)
Definition local (name : string) (v : option value) : M self value :=
  match v with
  | Some x => ret x
  | None =>
      raise (PyExc UnboundLocalError
               [VStr ("local variable '" ++ name
                      ++ "' referenced before assignment")])
  end.

(** [create_payload_for_new_s3_account(user_type)].  The method calls
    [self.create_s3_account()] for a "duplicate" user; that call is
    the argument [self_create_s3_account]. *)
Definition create_payload_for_new_s3_account
           (self_create_s3_account : M self value) (user_type : string)
  : M self value :=
  except_Exception
    (if String.eqb user_type "pre-define" then
       data <- lift (getitem_str config "s3account_user") ;;
       username <- lift (getitem_str data "username") ;;
       email <- lift (getitem_str data "email") ;;
       password <- lift (getitem_str data "password") ;;
       ret (VDict [("account_name", username);
                   ("account_email", email);
                   ("password", password)])
     else
       names <- (if String.eqb user_type "valid" then
                   t1 <- int_time ;;
                   t2 <- int_time ;;
                   ret (Some (VStr ("test" ++ str_of_Z t1)),
                        Some (VStr ("test" ++ str_of_Z t2
                                    ++ "@seagate.com")))
                 else ret (None, None)) ;;
       let user_name := fst names in
       let email_id := snd names in
       if String.eqb user_type "duplicate" then
         self_create_s3_account ;;;
         st <- get ;;
         ret (recently_created_s3_account_user st)
       else if String.eqb user_type "missing" then
         password <- lift (getitem_str config "test_s3account_password") ;;
         ret (VDict [("password", password)])
       else if String.eqb user_type "invalid" then
         ret (VDict [("user_name", VStr "xys");
                     ("mail", VStr "abc@email.com");
                     ("pass_word", VStr "password")])
       else if String.eqb user_type "invalid_for_ui" then
         ret (VDict [("account_name", VStr "*ask%^*&");
                     ("account_email", VStr "seagate*mail-com");
                     ("password", VStr "password")])
       else
         account_name <- local "user_name" user_name ;;
         account_email <- local "email_id" email_id ;;
         password <- lift (getitem_str config "test_s3account_password") ;;
         ret (VDict [("account_name", account_name);
                     ("account_email", account_email);
                     ("password", password)]))
    CSM_REST_VERIFICATION_FAILED.

(** [create_s3_account(user_type, save_new_user)], decorated.  The
    recursion through [create_payload_for_new_s3_account] is bounded
    by [fuel]. *)
Fixpoint create_s3_account_fuel (fuel : nat) (user_type : string)
         (save_new_user : bool) (login_as : option string)
  : M self value :=
  match fuel with
  | O => diverge
  | S fuel' =>
      authenticate_and_login login_as
        (except_BaseException
           (endpoint <- lift (getitem_str config "s3accounts_endpoint") ;;
            user_data <- create_payload_for_new_s3_account
                           (create_s3_account_fuel fuel' "valid" false None)
                           user_type ;;
            set_recently user_data ;;;
            (if save_new_user then
               account_name <- lift (getitem_str user_data "account_name") ;;
               password <- lift (getitem_str user_data "password") ;;
               ext w (update_csm_config_for_user
                        "new_s3_account_user" account_name password) ;;;
               ret tt
             else ret tt) ;;;
            st <- get ;;
            ext w (rest_call "post" endpoint (Some user_data) (headers st)))
           CSM_REST_AUTHENTICATION_ERROR)
  end.

(** Two levels suffice: a "duplicate" user calls back once, with the
    "valid" user type, which does not call back. *)
Definition create_s3_account : string -> bool -> option string
                               -> M self value :=
  create_s3_account_fuel 2.

(** [list_all_created_s3account()], decorated. *)
Definition list_all_created_s3account (login_as : option string)
  : M self value :=
  authenticate_and_login login_as
    (except_BaseException
       (endpoint <- lift (getitem_str config "s3accounts_endpoint") ;;
        st <- get ;;
        response <- ext w (rest_call "get" endpoint None (headers st)) ;;
        ret response)
       CSM_REST_AUTHENTICATION_ERROR).

(** The endpoint ["{}/{}".format(self.config["s3accounts_endpoint"],
    username)]. *)
Definition user_endpoint (username : value) : M self value :=
  base <- lift (getitem_str config "s3accounts_endpoint") ;;
  s <- lift (str_format repr "{}/{}" [base; username]) ;;
  ret (VStr s).

(** [edit_user_payload(payload_type)].  The dict literal is evaluated
    entry by entry before the membership test. *)
Definition edit_user_payload (payload_type : string) : M self value :=
  except_Exception
    (pw_valid <- lift (getitem_str config "test_s3account_password") ;;
     pw_unchanged <- lift (getitem_str config "test_s3account_password") ;;
     pw_only <- lift (getitem_str config "test_s3account_password") ;;
     let payload_values :=
       [("valid", VDict [("password", pw_valid);
                         ("reset_access_key", VStr "true")]);
        ("unchanged_access", VDict [("password", pw_unchanged);
                                    ("reset_access_key", VStr "false")]);
        ("only_reset_access_key", VDict [("reset_access_key", VStr "true")]);
        ("only_password", VDict [("password", pw_only)]);
        ("no_payload", VDict [])] in
     if negb (has_key payload_type payload_values) then ret VNone
     else lift (getitem_str (VDict payload_values) payload_type))
    CSM_REST_VERIFICATION_FAILED.

(** [edit_s3_account_user(username, payload)], decorated. *)
Definition edit_s3_account_user (username : value) (payload : string)
           (login_as : option string) : M self value :=
  authenticate_and_login login_as
    (except_BaseException
       (endpoint <- user_endpoint username ;;
        patch_payload <- edit_user_payload payload ;;
        st <- get ;;
        response <- ext w (rest_call "patch" endpoint (Some patch_payload)
                                     (headers st)) ;;
        ret response)
       CSM_REST_AUTHENTICATION_ERROR).

(** [delete_s3_account_user(username)], decorated. *)
Definition delete_s3_account_user (username : value)
           (login_as : option string) : M self value :=
  authenticate_and_login login_as
    (except_BaseException
       (endpoint <- user_endpoint username ;;
        st <- get ;;
        response <- ext w (rest_call "delete" endpoint None (headers st)) ;;
        ret response)
       CSM_REST_AUTHENTICATION_ERROR).

(** [edit_s3_account_user_invalid_password(username, payload)],
    decorated. *)
Definition edit_s3_account_user_invalid_password
           (username payload : value) (login_as : option string)
  : M self value :=
  authenticate_and_login login_as
    (except_BaseException
       (endpoint <- user_endpoint username ;;
        st <- get ;;
        response <- ext w (rest_call "patch" endpoint (Some payload)
                                     (headers st)) ;;
        ret response)
       CSM_REST_AUTHENTICATION_ERROR).

(** [(not response) or response.status_code != expected]. *)
Definition not_status (response expected : value) : result bool :=
  if negb (truthy response) then Ok true
  else match status_code_of response with
       | Ok st => Ok (negb (py_eq (VInt st) expected))
       | Raise e => Raise e
       | Diverge => Diverge
       end.

(** [const.ACCESS_KEY not in response and
     const.SECRET_KEY not in response]. *)
Definition keys_absent (response : value) : result bool :=
  match py_in (VStr const.ACCESS_KEY) response with
  | Ok a =>
      if negb a then
        match py_in (VStr const.SECRET_KEY) response with
        | Ok s => Ok (negb s)
        | r => r
        end
      else Ok false
  | r => r
  end.

(** [verify_list_s3account_details(expect_no_user)]. *)
Definition verify_list_s3account_details (expect_no_user : bool)
  : M self value :=
  except_Exception
    (response <- list_all_created_s3account None ;;
     bad <- lift (not_status response (VInt const.SUCCESS_STATUS)) ;;
     if bad then ret (VBool false)
     else
       response <- lift (json_of response) ;;
       present <- lift (py_in (VStr const.S3_ACCOUNTS) response) ;;
       if negb present then ret (VBool false)
       else
         accounts <- lift (getitem_str response "s3_accounts") ;;
         n <- lift (py_len accounts) ;;
         if (n =? 0) || expect_no_user then
           iam <- lift (getitem_str response "iam_users") ;;
           lift (py_len iam) ;;;
           accounts' <- lift (getitem_str response "s3_accounts") ;;
           n' <- lift (py_len accounts') ;;
           ret (VBool ((n' =? 0) && expect_no_user))
         else
           accounts' <- lift (getitem_str response "s3_accounts") ;;
           keys <- lift (py_iter accounts') ;;
           ok <- lift (py_all
                         (fun key =>
                            match py_in (VStr const.ACC_NAME) key with
                            | Ok true => py_in (VStr const.ACC_EMAIL) key
                            | r => r
                            end) keys) ;;
           ret (VBool ok))
    CSM_REST_VERIFICATION_FAILED.

(** [create_and_verify_s3account(user, expect_status_code)]. *)
Definition create_and_verify_s3account (user : string)
           (expect_status_code : value) : M self value :=
  except_Exception
    (if negb (existsb (String.eqb user) user_type) then ret (VBool false)
     else
       response <- create_s3_account user false None ;;
       if negb (String.eqb user "valid") then
         st <- lift (status_code_of response) ;;
         ret (VBool (py_eq (VInt st) expect_status_code))
       else
         bad <- lift (not_status response expect_status_code) ;;
         if bad then ret (VBool false)
         else
           response <- lift (json_of response) ;;
           absent <- lift (keys_absent response) ;;
           if absent then ret (VBool false)
           else
             name <- lift (getitem_str response const.ACC_NAME) ;;
             st <- get ;;
             name' <- lift (getitem_str
                              (recently_created_s3_account_user st)
                              const.ACC_NAME) ;;
             if negb (py_eq name name') then ret (VBool false)
             else
               email <- lift (getitem_str response const.ACC_EMAIL) ;;
               st <- get ;;
               email' <- lift (getitem_str
                                 (recently_created_s3_account_user st)
                                 const.ACC_EMAIL) ;;
               if negb (py_eq email email') then ret (VBool false)
               else
                 listing <- list_all_created_s3account None ;;
                 listing <- lift (json_of listing) ;;
                 list_acc <- lift (getitem_str listing "s3_accounts") ;;
                 e <- lift (getitem_str response const.ACC_EMAIL) ;;
                 n <- lift (getitem_str response const.ACC_NAME) ;;
                 let expected_result :=
                   VDict [(const.ACC_EMAIL, e); (const.ACC_NAME, n)] in
                 actuals <- lift (py_iter list_acc) ;;
                 found <- lift (py_any
                                  (fun actual_result =>
                                     match verify_json_response
                                             actual_result expected_result
                                     with
                                     | Ok v => Ok (truthy v)
                                     | Raise x => Raise x
                                     | Diverge => Diverge
                                     end) actuals) ;;
                 ret (VBool found))
    CSM_REST_VERIFICATION_FAILED.

(** [edit_and_verify_s3_account_user(user_payload)]. *)
Definition edit_and_verify_s3_account_user (user_payload : string)
  : M self value :=
  except_Exception
    (create_s3_account "valid" true None ;;;
     st <- get ;;
     account_name <- lift (getitem_str
                             (recently_created_s3_account_user st)
                             "account_name") ;;
     response <- edit_s3_account_user account_name user_payload
                                      (Some "new_s3_account_user") ;;
     if String.eqb user_payload "unchanged_access"
        || String.eqb user_payload "only_password" then
       bad <- lift (not_status response (VInt const.SUCCESS_STATUS)) ;;
       if bad then ret (VBool false)
       else
         response <- lift (json_of response) ;;
         name <- lift (getitem_str response const.ACC_NAME) ;;
         if py_eq name account_name then
           a <- lift (py_in (VStr const.ACCESS_KEY) response) ;;
           if negb a then
             s <- lift (py_in (VStr const.SECRET_KEY) response) ;;
             ret (VBool (negb s))
           else ret (VBool false)
         else ret (VBool false)
     else if negb (String.eqb user_payload "valid") then
       if negb (truthy response) then
         st <- lift (status_code_of response) ;;
         ret (VBool (st =? const.BAD_REQUEST))
       else ret (VBool false)
     else
       bad <- lift (not_status response (VInt const.SUCCESS_STATUS)) ;;
       if bad then ret (VBool false)
       else
         response <- lift (json_of response) ;;
         absent <- lift (keys_absent response) ;;
         if absent then ret (VBool false)
         else
           has_name <- lift (py_in (VStr const.ACC_NAME) response) ;;
           if negb has_name then ret (VBool false)
           else
             name <- lift (getitem_str response const.ACC_NAME) ;;
             ret (VBool (py_eq name account_name)))
    CSM_REST_VERIFICATION_FAILED.
End Methods.
End RestS3user.

(** ** [libs/ras/ras_core_lib.py] *)


(** [v.split(...)], [v.strip()]: the receiver has to be a string. *)
Definition as_str (v : value) : result string :=
  match v with
  | VStr s => Ok s
  | _ => Raise (PyExc AttributeError [VStr "object has no such attribute"])
  end.


Module RASCoreLib.

(** [commons.commands] and [commons.constants], neither under src/.  A
    command template is taken together with its [format] method: the
    field maps the arguments of [format] to the resulting command. *)
Record commands : Type := mk_commands {
  EMPTY_FILE_CMD : list value -> result string;
  COPY_FILE_CMD : list value -> result string;
  SCREEN_CMD : list value -> result string;
  UPDATE_STAT_FILE_CMD : list value -> result string;
  FILE_MODE_CHANGE_CMD : list value -> result string;
  ENCRYPT_PASSWORD_CMD : list value -> result string;
  MDADM_CMD : list value -> result string;
  EXTRACT_LOG_CMD : list value -> result string;
  INSTALL_SCREEN_CMD : value;
  GET_CLUSTER_ID_CMD : value;
  SEL_INFO_CMD : value;
  IPMI_SDR_LIST_CMD : value;
  CONSUL_PATH : value;
  SERVICE_STATUS_PATH : value;
  BYTES_TO_READ : value;
  ONE_BYTE_TO_READ : value
}.

(** The string methods of the interpreter that the parsing helpers
    use. *)
Record str_methods : Type := mk_str_methods {
  split : string -> string -> list string;
  strip : string -> string;
  rstrip : string -> string -> string;
  int_of_str : string -> result Z
}.

Section Methods.
Variable w : world.
Variable repr : value -> string.
Variable cmds : commands.
Variable strs : str_methods.
(** [RAS_VAL], the dict read from the RAS YAML configuration. *)
Variable RAS_VAL : value.

(** A [RASCoreLib] object has no field that its methods write. *)
Definition R : Type -> Type := M unit.

(** [self.node_utils.execute_cmd(cmd=cmd, read_nbytes=BYTES_TO_READ)]. *)
Definition execute_read (cmd : value) : R value :=
  ext w (execute_cmd cmd [("read_nbytes", BYTES_TO_READ cmds)]).



Definition install_screen_on_machine : R value :=
  let cmd := INSTALL_SCREEN_CMD cmds in
  response <- execute_read cmd ;;
  ret response.

Definition run_cmd_on_screen (cmd : value) : R value :=
  probe <- ext w (execute_cmd (VStr "rpm  -qa | grep screen") []) ;;
  present <- lift (getitem_int probe 0) ;;
  (if negb (truthy present) then install_screen_on_machine ;;; ret tt
   else ret tt) ;;;
  ext w (time_sleep (VInt 5)) ;;;
  screen_cmd <- lift (SCREEN_CMD cmds [cmd]) ;;
  response <- execute_read (VStr screen_cmd) ;;
  ret response.









(** The last element of a non-empty list ([xs[-1]]). *)
Definition last_item (xs : list string) : result value :=
  match rev xs with
  | x :: _ => Ok (VStr x)
  | [] => Raise (PyExc IndexError [VStr "list index out of range"])
  end.




(** The [for pattern in pattern_lst] loop of [validate_alert_msg]:
    [response] is the pattern matched last, [None] before the first. *)
Fixpoint validate_loop (local_path : string) (patterns : list value)
         (response : value) : R value :=
  match patterns with
  | [] =>
      ext w (os_remove local_path) ;;;
      ret (VTuple [VBool true; response])
  | pattern :: rest =>
      content <- ext w (open_read local_path) ;;
      found <- lift (py_in pattern content) ;;
      if found then validate_loop local_path rest pattern
      else
        ext w (os_remove local_path) ;;;
        ret (VTuple [VBool false; pattern])
  end.

Definition validate_alert_msg (remote_file_path pattern_lst : value)
  : R value :=
  let response := VNone in
  cwd <- ext w os_getcwd ;;
  cwd <- lift (as_str cwd) ;;
  let local_path := os_path_join cwd "temp_file" in
  present <- ext w (os_path_exists local_path) ;;
  (if truthy present then ext w (os_remove local_path) ;;; ret tt
   else ret tt) ;;;
  ext w (copy_s3server_file remote_file_path local_path) ;;;
  patterns <- lift (py_iter pattern_lst) ;;
  validate_loop local_path patterns response.

(** [if not resp[0]: return resp], followed by the rest of the
    function. *)
Definition return_if_failed (resp : value) (rest : R value) : R value :=
  ok <- lift (getitem_int resp 0) ;;
  if negb (truthy ok) then ret resp else rest.

(** [common_cfg[k1][k2]]. *)
Definition cfg2 (common_cfg : value) (k1 k2 : string) : R value :=
  sub <- lift (getitem_str common_cfg k1) ;;
  lift (getitem_str sub k2).

Definition alert_validation (string_list : value) (restart : bool)
  : R value :=
  common_cfg <- lift (getitem_str RAS_VAL "ras_sspl_alert") ;;
  (if restart then
     resource <- lift (getitem_str common_cfg "sspl_resource_id") ;;
     ext w (restart_pcs_resource resource) ;;;
     secs <- lift (getitem_str common_cfg "sleep_val") ;;
     ext w (time_sleep secs) ;;;
     ret tt
   else ret tt) ;;;
  service <- cfg2 common_cfg "service" "sspl_service" ;;
  resp <- ext w (get_s3server_service_status service) ;;
  return_if_failed resp
    (service <- cfg2 common_cfg "service" "rabitmq_service" ;;
     resp <- ext w (get_s3server_service_status service) ;;
     return_if_failed resp
       (secs <- lift (getitem_str common_cfg "sleep_val") ;;
        ext w (time_sleep secs) ;;;
        screen_log <- cfg2 common_cfg "file" "screen_log" ;;
        alert_log_file <- cfg2 common_cfg "file" "alert_log_file" ;;
        cmd <- lift (COPY_FILE_CMD cmds [screen_log; alert_log_file]) ;;
        response <- execute_read (VStr cmd) ;;
        return_if_failed response
          (filename <- cfg2 common_cfg "file" "alert_log_file" ;;
           local_path <- cfg2 common_cfg "file" "temp_txt_file" ;;
           ext w (read_file filename local_path) ;;;
           alert_log_file <- cfg2 common_cfg "file" "alert_log_file" ;;
           resource_type <- lift (getitem_int string_list 0) ;;
           extracted <- cfg2 common_cfg "file" "extracted_alert_file" ;;
           cmd <- lift (EXTRACT_LOG_CMD cmds
                          [alert_log_file; resource_type; extracted]) ;;
           response <- execute_read (VStr cmd) ;;
           return_if_failed response
             (remote_file_path <- cfg2 common_cfg "file"
                                       "extracted_alert_file" ;;
              resp <- validate_alert_msg remote_file_path string_list ;;
              return_if_failed resp
                (ret (VTuple [VBool true;
                              VStr "Fetched alerts successfully"])))))).
End Methods.
End RASCoreLib.

(** ** [tests/s3/test_support_bundle.py] *)

Module TestSupportBundle.

(** The lists that [create_support_bundle] may share with its caller,
    addressed by position; [resp_lst] is [None] or such a position. *)
Definition heap : Type := list (list value).

Definition deref (resp_lst : option nat) : M heap (option (list value)) :=
  h <- get ;;
  match resp_lst with
  | None => ret None
  | Some l => ret (Some (nth l h []))
  end.

(** [if resp_lst:] is false for [None] and for the empty list. *)
Definition resp_lst_truthy (cur : option (list value)) : bool :=
  match cur with
  | Some (_ :: _) => true
  | _ => false
  end.

(** [resp_lst.append(flag, output)]: [append] takes exactly one
    argument, so the call raises and the list stays as it is. *)
Definition append2 (resp_lst : option nat) (flag output : value)
  : M heap unit :=
  raise (type_error "append() takes exactly one argument (2 given)").

Section Methods.
Variable w : world.
Variable repr : value -> string.
(** [cmd.BUNDLE_CMD] of [commons.commands]. *)
Variable BUNDLE_CMD : value.
(** [support_bundle_conf["support_bundle"]["success_msg"]]. *)
Variable success_msg : value.

(** [remote_execution] passes [self.uname] and [self.passwd], the same
    in every call, which the model leaves out of the recorded call. *)
Definition remote_execution (hostname : value) (cmd : string)
  : M heap value :=
  ext w (run_remote_cmd cmd hostname).

Definition create_support_bundle (bundle_name dest_dir host_ip : value)
           (resp_lst : option nat) : M heap value :=
  final_cmd <- lift (str_format repr "{} {} {}"
                       [BUNDLE_CMD; bundle_name; dest_dir]) ;;
  resp <- remote_execution host_ip final_cmd ;;
  ok <- lift (getitem_int resp 0) ;;
  success <- (if truthy ok then
                output <- lift (getitem_int resp 1) ;;
                lift (py_in success_msg (VStr (py_str repr output)))
              else ret false) ;;
  if success then
    cur <- deref resp_lst ;;
    (if resp_lst_truthy cur then
       output <- lift (getitem_int resp 1) ;;
       append2 resp_lst (VBool true) output
     else ret tt) ;;;
    output <- lift (getitem_int resp 1) ;;
    ret (VTuple [VBool true; output])
  else
    cur <- deref resp_lst ;;
    (if resp_lst_truthy cur then
       output <- lift (getitem_int resp 1) ;;
       append2 resp_lst (VBool false) output
     else ret tt) ;;;
    output <- lift (getitem_int resp 1) ;;
    ret (VTuple [VBool false; output]).
End Methods.
End TestSupportBundle.

(** * Further methods of the three files *)

(** ** [RestS3user.delete_and_verify_s3_account_user] *)

Module RestS3userDelete.
Import RestS3user.

Section Methods.
Variable w : world.
Variable ct_args : CTError -> value -> list value.
Variable repr : value -> string.
Variable config : value.
(** [const.DELETE_SUCCESS_MSG] of [commons/constants.py], not under
    src/. *)
Variable DELETE_SUCCESS_MSG : value.

Definition delete_and_verify_s3_account_user : M self value :=
  except_Exception ct_args
    (create_s3_account w ct_args config "valid" true None ;;;
     st <- get ;;
     account_name <- lift (getitem_str (recently_created_s3_account_user st)
                                       "account_name") ;;
     response <- delete_s3_account_user w ct_args repr config account_name
                                        (Some "new_s3_account_user") ;;
     bad <- lift (not_status response (VInt const.SUCCESS_STATUS)) ;;
     if bad then ret (VBool false)
     else
       body <- lift (json_of response) ;;
       message <- lift (getitem_str body "message") ;;
       ret (VBool (py_eq message DELETE_SUCCESS_MSG)))
    CSM_REST_VERIFICATION_FAILED.
End Methods.
End RestS3userDelete.

(** ** Service and state helpers of [RASCoreLib] *)

(** ASCII white space, the characters [str.split()] and [bytes.split()]
    split one-byte text at. *)
Definition is_space (c : ascii) : bool :=
  let n := nat_of_ascii c in
  ((9 <=? n) && (n <=? 13) || (28 <=? n) && (n <=? 32))%nat.

(** [s.split()] on one-byte text: the maximal runs of characters that are
    not white space; [cur] is the run being read. *)
Fixpoint split_ws (s cur : string) : list string :=
  match s with
  | EmptyString => if String.eqb cur "" then [] else [cur]
  | String c s' =>
      if is_space c
      then if String.eqb cur "" then split_ws s' ""
           else cur :: split_ws s' ""
      else split_ws s' (cur ++ String c "")
  end.

Definition py_split (s : string) : list string := split_ws s "".

(** [int(c)] for a one-character string holding a one-byte character. *)
Definition int_of_char (c : ascii) : result Z :=
  let n := nat_of_ascii c in
  if ((48 <=? n) && (n <=? 57))%nat then Ok (Z.of_nat (n - 48))
  else Raise (PyExc ValueError
                [VStr "invalid literal for int() with base 10"]).

(** Text made of one-byte (ASCII) characters only, on which [py_split]
    and [int_of_char] are what the interpreter computes. *)
Definition ascii_only (s : string) : bool :=
  forallb (fun c => (nat_of_ascii c <? 128)%nat) (list_ascii_of_string s).

Module RASService.
Import RASCoreLib.

(** [validate_exec_time(time_str)], a static method without external
    calls. *)
Definition validate_exec_time (time_str : string) : result value :=
  let time_lst := py_split time_str in
  if (length time_lst <? 3)%nat then Ok (VTuple [VBool true; VStr time_str])
  else
    match time_lst with
    | String c _ :: _ =>
        match int_of_char c with
        | Ok n =>
            if n <? 3 then Ok (VTuple [VBool true; VStr time_str])
            else Ok (VTuple [VBool false; VStr time_str])
        | Raise e => Raise e
        | Diverge => Diverge
        end
    | _ => Raise (PyExc IndexError [VStr "index out of range"])
    end.

Section Methods.
Variable w : world.
Variable cmds : commands.
Variable strs : str_methods.
(** [cmn_cons.SSPL_STATE_CMD] and the template
    [common_commands.PCS_RESOURCE_DISABLE_ENABLE] with its [format]. *)
Variable SSPL_STATE_CMD : value.
Variable PCS_RESOURCE_DISABLE_ENABLE : list value -> result string.
(** [bytes.decode("utf-8")]. *)
Variable decode_utf8 : string -> result string.

Definition decode (v : value) : result string :=
  match v with
  | VBytes b => decode_utf8 b
  | _ => Raise (PyExc AttributeError [VStr "object has no attribute 'decode'"])
  end.

Definition get_sspl_state : R value :=
  response <- execute_read w cmds SSPL_STATE_CMD ;;
  output <- lift (getitem_int response 1) ;;
  text <- lift (decode output) ;;
  state <- lift (last_item (split strs (strip strs text) "=")) ;;
  let flag := if py_eq state (VStr "active") then true else false in
  ret (VTuple [VBool flag; state]).

Definition restart_service (service_name : value) : R value :=
  ext w (restart_pcs_resource service_name) ;;;
  ext w (time_sleep (VInt 60)) ;;;
  status <- ext w (get_s3server_service_status service_name) ;;
  ret status.

Definition enable_disable_service (operation service : value) : R value :=
  command <- lift (PCS_RESOURCE_DISABLE_ENABLE [operation; service]) ;;
  ext w (execute_cmd (VStr command) [("read_lines", VBool true)]) ;;;
  ext w (time_sleep (VInt 30)) ;;;
  resp <- ext w (get_s3server_service_status service) ;;
  ret resp.
End Methods.
End RASService.

(** ** [RASCoreLib.create_remote_dir_recursive] *)

(** [s.split(sep)] for a one-character separator; [cur] is the piece
    being read. *)
Fixpoint split_char (sep : ascii) (s cur : string) : list string :=
  match s with
  | EmptyString => [cur]
  | String c s' =>
      if Ascii.eqb c sep then cur :: split_char sep s' ""
      else split_char sep s' (cur ++ String c "")
  end.

Module RemoteDir.

(** The two methods of [self.node_utils] that the function calls. *)
Inductive node_call : Type :=
| path_exists (path : string)
| create_dir_sftp (dpath : string).

(** The node: how such a call is answered given the calls made before. *)
Definition node : Type := list node_call -> node_call -> result value.

(** A computation on the node extends the trace of its calls. *)
Definition N (A : Type) : Type :=
  list node_call -> result A * list node_call.

Definition nret {A} (a : A) : N A := fun tr => (Ok a, tr).

Definition nbind {A B} (c : N A) (k : A -> N B) : N B :=
  fun tr =>
    match c tr with
    | (Ok a, tr') => k a tr'
    | (Raise e, tr') => (Raise e, tr')
    | (Diverge, tr') => (Diverge, tr')
    end.

Definition ask (nd : node) (c : node_call) : N value :=
  fun tr => (nd tr c, (tr ++ [c])%list).

(** [file_path.split("/")[:-1][1:]], the components the loop visits. *)
Definition remote_dirs (file_path : string) : list string :=
  tl (removelast (split_char "/" file_path "")).

Section Methods.
Variable nd : node.

(** The [for directory in remote_path_lst[1:]] loop; [new_path] is the
    path built so far. *)
Fixpoint create_dirs (dirs : list string) (new_path : string) : N value :=
  match dirs with
  | [] => nret (VBool true)
  | directory :: rest =>
      let old_path := new_path in
      let new_path := os_path_join new_path directory in
      nbind (ask nd (path_exists new_path)) (fun present =>
      if negb (truthy present) then
        nbind (ask nd (create_dir_sftp (os_path_join directory old_path)))
          (fun resp =>
             if negb (truthy resp) then nret (VBool false)
             else create_dirs rest new_path)
      else create_dirs rest new_path)
  end.

(** [create_remote_dir_recursive(file_path)] for a [str] argument. *)
Definition create_remote_dir_recursive (file_path : string) : N value :=
  let new_path := "/" in
  nbind (ask nd (path_exists file_path)) (fun res =>
  if negb (truthy res) then create_dirs (remote_dirs file_path) new_path
  else nret (VBool true)).
End Methods.
End RemoteDir.

(** ** The loop of [test_dest_has_less_space_5274] *)

(** [range(v)]. *)
Definition py_range (v : value) : result (list Z) :=
  match v with
  | VInt n => Ok (map Z.of_nat (seq 0 (Z.to_nat n)))
  | VBool b => Ok (if b then [0] else [])
  | _ => Raise (type_error "object cannot be interpreted as an integer")
  end.

Module TestDestHasLessSpace.
Import TestSupportBundle.

Section Test.
Variable w : world.
Variable repr : value -> string.
Variable BUNDLE_CMD : value.
Variable success_msg : value.
(** [assert_false(cond, msg)] of [commons.utils.assert_utils], not under
    src/. *)
Variable assert_false : value -> value -> M heap unit.
(** [support_bundle_conf["test_5274"]], the directory made before the
    loop and [self.host_ip]. *)
Variable test_cfg : value.
Variable dir_path : value.
Variable host_ip : value.

(** The body of the [for i in range(...)] loop, for the values of [i]
    still to come; [break] ends the loop without running the rest. *)
Fixpoint bundle_loop (idxs : list Z) : M heap unit :=
  match idxs with
  | [] => ret tt
  | i :: rest =>
      prefix <- lift (getitem_str test_cfg "bundle_prefix") ;;
      bundle_name <- lift (str_format repr "{}_{}"
                             [prefix; VStr (str_of_Z i)]) ;;
      resp <- create_support_bundle w repr BUNDLE_CMD success_msg
                (VStr bundle_name) dir_path host_ip None ;;
      ok <- lift (getitem_int resp 0) ;;
      if negb (truthy ok) then ret tt
      else
        cond <- lift (getitem_int resp 0) ;;
        msg <- lift (getitem_int resp 1) ;;
        assert_false cond msg ;;;
        bundle_loop rest
  end.

(** Lines 336 to 350 of the test: the loop with its range. *)
Definition bundle_until_failure : M heap unit :=
  count <- lift (getitem_str test_cfg "count") ;;
  idxs <- lift (py_range count) ;;
  bundle_loop idxs.
End Test.
End TestDestHasLessSpace.

(** * Statements and sample environments *)

(** ** Sample environments

    Concrete configurations and worlds on which the statements below are
    exercised. *)

Module Sample.

(** A [CTException] that keeps its message as its only argument. *)
Definition ct_args : CTError -> value -> list value :=
  fun _ msg => [msg].

Definition repr : value -> string := fun _ => "<object>".

Definition config : value :=
  VDict [("s3accounts_endpoint", VStr "/api/v1/s3_accounts");
         ("test_s3account_password", VStr "Seagate@1");
         ("s3account_user",
          VDict [("username", VStr "s3admin");
                 ("email", VStr "s3admin@seagate.com");
                 ("password", VStr "Seagate@1")])].

Definition auth_headers : value :=
  VDict [("Authorization", VStr "Bearer token")].

(** The management console lists no account and no IAM user section. *)
Definition empty_listing : world :=
  fun _ c =>
    match c with
    | rest_login _ => Ok auth_headers
    | rest_call verb _ _ _ =>
        if String.eqb verb "get"
        then Ok (VResp 200 (Some (VDict [("s3_accounts", VList [])])))
        else Ok (VResp 400 None)
    | _ => Ok VNone
    end.

(** A local file system whose copy of the alert file reads "fan fault
    alert"; every other call returns [None]. *)
Definition alert_file : world :=
  fun _ c =>
    match c with
    | os_getcwd => Ok (VStr "/tmp")
    | os_path_exists _ => Ok (VBool false)
    | open_read _ => Ok (VStr "fan fault alert")
    | _ => Ok VNone
    end.

(** Command templates for the samples. *)
Definition cmds : RASCoreLib.commands :=
  RASCoreLib.mk_commands
    (str_format repr "truncate -s 0 {}")
    (str_format repr "cp -rfv {} {}")
    (str_format repr "screen -d -m -L -S 'screen_RMQ' {}")
    (str_format repr "echo 'state=active' > {}")
    (str_format repr "chmod +x {}")
    (str_format repr "python3 encryptor.py encrypt {} {}")
    (str_format repr "mdadm {}")
    (str_format repr "sed -n '/{}/,$p' {} > {}")
    (VStr "yum -y install screen")
    (VStr "salt-call grains.get cluster_id")
    (VStr "ipmitool sel info")
    (VStr "ipmitool sdr list")
    (VStr "/usr/bin/consul")
    (VStr "/var/cortx/sspl/data/state.txt")
    (VInt 8000)
    (VInt 1).

(** String methods for the samples; they are exact on strings without
    separators and without surrounding blanks, which is all the samples
    pass to them. *)
Definition strs : RASCoreLib.str_methods :=
  RASCoreLib.mk_str_methods
    (fun s _ => [s]) (fun s => s) (fun s _ => s)
    (fun _ => Raise (PyExc ValueError [VStr "invalid literal for int()"])).

(** A node on which every remote command fails with the output
    "Connection refused". *)
Definition failing_node : world :=
  fun _ _ => Ok (VTuple [VBool false; VBytes "Connection refused"]).

(** A node on which the bundle script succeeds. *)
Definition bundle_node : world :=
  fun _ _ => Ok (VTuple [VBool true; VStr "S3 support bundle generated successfully"]).

(** The RAS configuration entries that [alert_validation] reads. *)
Definition RAS_VAL : value :=
  VDict [("ras_sspl_alert",
          VDict [("sspl_resource_id", VStr "sspl-ll");
                 ("sleep_val", VInt 120);
                 ("service", VDict [("sspl_service", VStr "sspl-ll");
                                    ("rabitmq_service",
                                     VStr "rabbitmq-server")]);
                 ("file", VDict [("screen_log", VStr "/root/screenlog.0");
                                 ("alert_log_file", VStr "/root/alert.log");
                                 ("temp_txt_file", VStr "/root/temp.txt");
                                 ("extracted_alert_file",
                                  VStr "/root/extracted_alert.log")])])].

(** A node on which the SSPL service runs and RabbitMQ does not. *)
Definition rabbitmq_down : world :=
  fun _ c =>
    match c with
    | get_s3server_service_status service =>
        if py_eq service (VStr "rabbitmq-server")
        then Ok (VTuple [VBool false; VStr "inactive"])
        else Ok (VTuple [VBool true; VStr "active"])
    | _ => Ok (VTuple [VBool true; VBytes ""])
    end.

(** An account response that carries an access key and no secret key. *)
Definition account_without_secret : value :=
  VDict [("account_name", VStr "test1600000000");
         ("account_email", VStr "test1600000000@seagate.com");
         ("access_key", VStr "AKIAEXAMPLE")].

(** A console that answers every create and edit request with
    [account_without_secret] and lists the account. *)
Definition no_secret_key : world :=
  fun _ c =>
    match c with
    | rest_login _ => Ok auth_headers
    | time_time => Ok (VInt 1600000000)
    | rest_call verb _ _ _ =>
        if String.eqb verb "get"
        then Ok (VResp 200
                   (Some (VDict
                            [("s3_accounts",
                              VList [VDict
                                       [("account_name",
                                         VStr "test1600000000");
                                        ("account_email",
                                         VStr "test1600000000@seagate.com")]])])))
        else Ok (VResp 200 (Some account_without_secret))
    | _ => Ok VNone
    end.

(** A [verify_json_response] that accepts an actual dict holding every
    expected item. *)
Definition verify_json_response (actual expected : value) : result value :=
  match actual, expected with
  | VDict a, VDict e =>
      Ok (VBool (forallb (fun kv => match assoc (fst kv) a with
                                    | Some v => py_eq v (snd kv)
                                    | None => false
                                    end) e))
  | _, _ => Ok (VBool (py_eq actual expected))
  end.

(** The REST client is interrupted during every request. *)
Definition interrupted : world :=
  fun _ c =>
    match c with
    | rest_login _ => Ok auth_headers
    | rest_call _ _ _ _ => Raise (PyExc KeyboardInterrupt [])
    | time_time => Ok (VInt 1600000000)
    | _ => Ok VNone
    end.

End Sample.

(** ** Statements *)

(** The payload types [edit_user_payload] has an entry for. *)
Definition recognized_payload_types : list string :=
  ["valid"; "unchanged_access"; "only_reset_access_key"; "only_password";
   "no_payload"].

(** C6 as stated: a recognized payload type yields a dict whose keys are
    among [password] and [reset_access_key]; any other one yields [None]
    without raising. *)
Definition edit_user_payload_returns
           (ct_args : CTError -> value -> list value) (config : value)
           (payload_type : string) : Prop :=
  forall tr st,
    let r := fst (fst (RestS3user.edit_user_payload ct_args config
                                                    payload_type tr st)) in
    (In payload_type recognized_payload_types ->
     exists d, r = Ok (VDict d)
               /\ forall k, has_key k d = true ->
                            k = "password" \/ k = "reset_access_key")
    /\ (~ In payload_type recognized_payload_types -> r = Ok VNone).

(** The number of times a trace opens and reads a local file. *)
Definition reads (tr : list call) : nat :=
  length (filter (fun c => match c with open_read _ => true | _ => false end)
                 tr).

(** The local copy [validate_alert_msg] reads: [temp_file] in the
    working directory. *)
Definition temp_file_path (cwd : string) : string :=
  os_path_join cwd "temp_file".

(** The local side of [validate_alert_msg] behaves: the working directory
    is [cwd], file-system calls and the copy from the node return, and the
    fetched copy [cwd/temp_file] reads as [content]. *)
Definition local_copy (w : world) (cwd content : string) : Prop :=
  (forall h, w h os_getcwd = Ok (VStr cwd))
  /\ (forall h p, exists v, w h (os_path_exists p) = Ok v)
  /\ (forall h p, exists v, w h (os_remove p) = Ok v)
  /\ (forall h f p, exists v, w h (copy_s3server_file f p) = Ok v)
  /\ (forall h, w h (open_read (temp_file_path cwd)) = Ok (VStr content)).

(** A call that runs a command on the node. *)
Definition is_remote_cmd (c : call) : bool :=
  match c with
  | execute_cmd _ _ | run_remote_cmd _ _ => true
  | _ => false
  end.



(** A step of [alert_validation] whose result is inspected: a command on
    the node or a service-status query. *)
Definition is_checked_step (c : call) : bool :=
  match c with
  | execute_cmd _ _ | get_s3server_service_status _ => true
  | _ => false
  end.

(** [not resp[0]] holds. *)
Definition falsy_first (resp : value) : bool :=
  match getitem_int resp 0 with
  | Ok x => negb (truthy x)
  | _ => false
  end.

(** No retry and no recovery: in every run of [m], a checked step that
    returns a result with a falsy first element is the last call of the
    run, and the run returns that result. *)
Definition stops_at_failure (w : world) (m : M unit value) : Prop :=
  forall tr0 st r tr st' h c rest resp,
    m tr0 st = (r, tr, st') ->
    tr = (tr0 ++ h ++ c :: rest)%list ->
    is_checked_step c = true ->
    w (tr0 ++ h)%list c = Ok resp ->
    falsy_first resp = true ->
    rest = [] /\ r = Ok resp.


(** A computation that leaves the state as it found it. *)
Definition keeps_state {St A} (m : M St A) : Prop :=
  forall tr st, snd (m tr st) = st.

(** A computation that makes no external call. *)
Definition no_calls {St A} (m : M St A) : Prop :=
  forall tr st, snd (fst (m tr st)) = tr.

(** No checked step among [calls], made after [tr0], returned a result
    with a falsy first element. *)
Definition clean (w : world) (tr0 calls : list call) : Prop :=
  forall h c rest resp,
    calls = (h ++ c :: rest)%list ->
    is_checked_step c = true ->
    w (tr0 ++ h)%list c = Ok resp ->
    falsy_first resp = false.

(** Every run of [m] is clean. *)
Definition runs_clean {A} (w : world) (m : M unit A) : Prop :=
  forall tr0 st,
  exists calls,
    snd (fst (m tr0 st)) = (tr0 ++ calls)%list /\ clean w tr0 calls.

(** Every run of [m] is clean, or clean up to its last call, a checked
    step with a falsy first element whose result the run returns. *)
Definition fails_fast (w : world) (m : M unit value) : Prop :=
  forall tr0 st,
  exists calls,
    snd (fst (m tr0 st)) = (tr0 ++ calls)%list
    /\ (clean w tr0 calls
        \/ exists pre c resp,
            calls = (pre ++ [c])%list
            /\ clean w tr0 pre
            /\ w (tr0 ++ pre)%list c = Ok resp
            /\ fst (fst (m tr0 st)) = Ok resp).

(** Every REST request among [calls] has the given verb and endpoint. *)
Definition requests_only (verb : string) (endpoint : value)
           (calls : list call) : Prop :=
  forall v e d h, In (rest_call v e d h) calls -> v = verb /\ e = endpoint.

(** Every REST request a run of [m] issues has the given verb and
    endpoint. *)
Definition quiet {St A} (verb : string) (endpoint : value) (m : M St A)
  : Prop :=
  forall tr st,
  exists calls,
    snd (fst (m tr st)) = (tr ++ calls)%list
    /\ requests_only verb endpoint calls.

(** ** Further sample environments *)

Module Scenarios.

(** The console refuses every connection; the clock and the login
    work. *)
Definition refused : world :=
  fun _ c =>
    match c with
    | rest_login _ => Ok Sample.auth_headers
    | rest_call _ _ _ _ =>
        Raise (PyExc (OtherException "ConnectionError")
                     [VStr "Connection refused"])
    | time_time => Ok (VInt 1600000000)
    | _ => Ok VNone
    end.

(** The console lists one complete account and an empty IAM section. *)
Definition listing : world :=
  fun _ c =>
    match c with
    | rest_login _ => Ok Sample.auth_headers
    | rest_call _ _ _ _ =>
        Ok (VResp 200
              (Some (VDict
                       [("s3_accounts",
                         VList [VDict [("account_name", VStr "alice");
                                       ("account_email",
                                        VStr "alice@seagate.com")]]);
                        ("iam_users", VList [])])))
    | _ => Ok VNone
    end.

(** The console answers every request with 503 and no JSON body. *)
Definition unavailable : world :=
  fun _ c =>
    match c with
    | rest_login _ => Ok Sample.auth_headers
    | rest_call _ _ _ _ => Ok (VResp 503 None)
    | time_time => Ok (VInt 1600000000)
    | _ => Ok VNone
    end.

(** Accounts are created; every edit is rejected with 400. *)
Definition rejects_edit : world :=
  fun _ c =>
    match c with
    | rest_login _ => Ok Sample.auth_headers
    | time_time => Ok (VInt 1600000000)
    | rest_call verb _ _ _ =>
        if String.eqb verb "patch" then Ok (VResp 400 None)
        else Ok (VResp 200 (Some Sample.account_without_secret))
    | _ => Ok VNone
    end.

(** An edit is answered with the account name alone; a delete with the
    success message. *)
Definition hides_keys : world :=
  fun _ c =>
    match c with
    | rest_login _ => Ok Sample.auth_headers
    | time_time => Ok (VInt 1600000000)
    | rest_call verb _ _ _ =>
        if String.eqb verb "patch"
        then Ok (VResp 200
                   (Some (VDict [("account_name", VStr "test1600000000")])))
        else if String.eqb verb "delete"
        then Ok (VResp 200
                   (Some (VDict [("message",
                                  VStr "Account Deleted Successfully.")])))
        else Ok (VResp 200 (Some Sample.account_without_secret))
    | _ => Ok VNone
    end.

(** String methods that are exact for a one-character separator and on
    text without surrounding blanks. *)
Definition strs : RASCoreLib.str_methods :=
  RASCoreLib.mk_str_methods
    (fun s sep => match sep with
                  | String c EmptyString => split_char c s ""
                  | _ => [s]
                  end)
    (fun s => s) (fun s _ => s)
    (fun _ => Raise (PyExc ValueError [VStr "invalid literal for int()"])).

(** The state file cannot be read, yet the output of the failed command
    ends in the word [active]. *)
Definition stale_state : world :=
  fun _ _ => Ok (VTuple [VBool false; VBytes "state=active"]).

(** A node without any directory, on which every creation succeeds. *)
Definition bare_node : RemoteDir.node :=
  fun _ c =>
    match c with
    | RemoteDir.path_exists _ => Ok (VBool false)
    | RemoteDir.create_dir_sftp _ => Ok (VBool true)
    end.

(** [assert not cond, msg]. *)
Definition assert_false {St} (cond msg : value) : M St unit :=
  if truthy cond then raise (PyExc (OtherException "AssertionError") [msg])
  else ret tt.

Definition test_5274 : value :=
  VDict [("bundle_prefix", VStr "bundle"); ("count", VInt 3)].

End Scenarios.

(** ** Further statements *)

(** The number of white-space characters of a text. *)
Definition spaces (s : string) : nat :=
  length (filter is_space (list_ascii_of_string s)).

(** The first character of a text that is not white space. *)
Definition first_char (s : string) : option ascii :=
  find (fun c => negb (is_space c)) (list_ascii_of_string s).

(** A restart of a cluster resource. *)
Definition is_restart (c : call) : bool :=
  match c with
  | restart_pcs_resource _ => true
  | _ => false
  end.

(** No run of [m] makes a call that [bad] singles out. *)
Definition never_calls {St A} (bad : call -> bool) (m : M St A) : Prop :=
  forall tr st,
  exists calls,
    snd (fst (m tr st)) = (tr ++ calls)%list
    /\ forallb (fun c => negb (bad c)) calls = true.

(** In [calls] the service status is queried at most once, as the last
    call, and directly after a wait of [secs] seconds. *)
Definition status_after_wait (secs : Z) (calls : list call) : Prop :=
  forall pre service rest,
    calls = (pre ++ get_s3server_service_status service :: rest)%list ->
    rest = []
    /\ exists pre', pre = (pre' ++ [time_sleep (VInt secs)])%list.

(** The directory [create_remote_dir_recursive] is to provide for the
    components [dirs]. *)
Definition target_dir (dirs : list string) : string :=
  fold_left os_path_join dirs "/".

(** [assert_false] fails on a true condition, before anything else
    happens. *)
Definition fails_when_true {St} (assert_false : value -> value -> M St unit)
  : Prop :=
  forall cond msg tr st,
    truthy cond = true ->
    exists e, assert_false cond msg tr st = (Raise e, tr, st).

(** The number of remote commands in a trace. *)
Definition remote_cmds (tr : list call) : nat :=
  length (filter is_remote_cmd tr).

(** The command line [create_support_bundle] sends to the node. *)
Definition bundle_command (repr : value -> string)
           (BUNDLE_CMD bundle_name dest_dir : value) : string :=
  py_str repr BUNDLE_CMD ++ " " ++ py_str repr bundle_name ++ " "
  ++ py_str repr dest_dir.

(** The values [old_path] takes in the loop of
    [create_remote_dir_recursive], started at [base]. *)
Fixpoint parents (dirs : list string) (base : string) : list string :=
  match dirs with
  | [] => []
  | d :: rest => base :: parents rest (os_path_join base d)
  end.

(** * Properties *)

Import RestS3user.

(** ** Fuel

    [create_s3_account] and [create_payload_for_new_s3_account] call each
    other; the recursion ends after one round, so the two levels of
    [create_s3_account] are enough: more fuel changes nothing. *)

Section Fuel.
Variable w : world.
Variable ct_args : CTError -> value -> list value.
Variable config : value.

Lemma bind_same {St A B} (m1 m2 : M St A) (k1 k2 : A -> M St B) :
  (forall tr st, m1 tr st = m2 tr st) ->
  (forall a tr st, k1 a tr st = k2 a tr st) ->
  forall tr st, bind m1 k1 tr st = bind m2 k2 tr st.
Proof.
  intros Hm Hk tr st. unfold bind. rewrite Hm.
  destruct (m2 tr st) as [[[a|e|] tr1] st1]; [apply Hk|reflexivity|reflexivity].
Qed.

Lemma try_except_same {St A} (b1 b2 : M St A) caught handler :
  (forall tr st, b1 tr st = b2 tr st) ->
  forall tr st,
    try_except b1 caught handler tr st = try_except b2 caught handler tr st.
Proof.
  intros H tr st. unfold try_except. rewrite H. reflexivity.
Qed.

Lemma create_payload_same_callback (sc1 sc2 : M self value) utype :
  (forall tr st, sc1 tr st = sc2 tr st) ->
  forall tr st,
    create_payload_for_new_s3_account w ct_args config sc1 utype tr st
    = create_payload_for_new_s3_account w ct_args config sc2 utype tr st.
Proof.
  intros H.
  unfold create_payload_for_new_s3_account, except_Exception.
  apply try_except_same.
  destruct (String.eqb utype "pre-define"); [reflexivity|].
  apply bind_same; [reflexivity|intros names].
  destruct (String.eqb utype "duplicate"); [|reflexivity].
  apply bind_same; [exact H|reflexivity].
Qed.

Lemma create_s3_account_fuel_valid n save_new_user login_as tr st :
  create_s3_account_fuel w ct_args config (S n) "valid" save_new_user
                         login_as tr st
  = create_s3_account_fuel w ct_args config 1 "valid" save_new_user
                           login_as tr st.
Proof. reflexivity. Qed.

Lemma create_s3_account_fuel_enough n utype save_new_user login_as tr st :
  create_s3_account_fuel w ct_args config (2 + n) utype save_new_user
                         login_as tr st
  = create_s3_account w ct_args config utype save_new_user login_as tr st.
Proof.
  unfold create_s3_account.
  change (2 + n)%nat with (S (S n)).
  cbn [create_s3_account_fuel].
  unfold authenticate_and_login, except_BaseException.
  revert tr st.
  apply bind_same; [reflexivity|intros hdrs].
  apply bind_same; [reflexivity|intros _].
  apply try_except_same.
  apply bind_same; [reflexivity|intros endpoint].
  apply bind_same; [|reflexivity].
  apply create_payload_same_callback.
  intros tr st. exact (create_s3_account_fuel_valid n false None tr st).
Qed.
End Fuel.

(** ** C8 *)

(** C8: when [list_all_created_s3account] returns a 200 response whose
    JSON maps "s3_accounts" to an empty list and has no "iam_users" key,
    [verify_list_s3account_details] returns no boolean, for either value
    of [expect_no_user]: the lookup [response["iam_users"]] made for the
    log line raises [KeyError], which is re-raised as a [CTException] with
    the error code [CSM_REST_VERIFICATION_FAILED]. *)
Theorem verify_list_s3account_details_missing_iam_users :
  forall (w : world) (ct_args : CTError -> value -> list value)
         (config : value) (expect_no_user : bool)
         (tr tr' : list call) (st st' : self) (d : list (string * value)),
    list_all_created_s3account w ct_args config None tr st
    = (Ok (VResp 200 (Some (VDict d))), tr', st') ->
    assoc "s3_accounts" d = Some (VList []) ->
    assoc "iam_users" d = None ->
    verify_list_s3account_details w ct_args config expect_no_user tr st
    = (Raise (CTException CSM_REST_VERIFICATION_FAILED (VStr "iam_users")),
       tr', st').
Proof.
  intros w ct_args config expect_no_user tr tr' st st' d Hlist Hacc Hiam.
  unfold verify_list_s3account_details, except_Exception, try_except, bind.
  rewrite Hlist.
  unfold lift, not_status, json_of, py_in, getitem_str, has_key; simpl.
  unfold const.S3_ACCOUNTS.
  rewrite Hacc, Hiam; simpl.
  reflexivity.
Qed.

(** ** The exception handlers *)

Lemma raise_CTException_run {A} ct_args code e tr st :
  @raise_CTException ct_args A code e tr st
  = (match args0 ct_args e with
     | Ok a => Raise (CTException code a)
     | Raise x => Raise x
     | Diverge => Diverge
     end, tr, st).
Proof.
  unfold raise_CTException, bind, lift, raise.
  destruct (args0 ct_args e); reflexivity.
Qed.

(** ** C9 *)

Lemma eqb_of_not_in (s c : string) (l : list string) :
  ~ In s l -> In c l -> String.eqb s c = false.
Proof.
  intros Hn Hin. apply String.eqb_neq. intros ->. exact (Hn Hin).
Qed.


Lemma verify_list_s3account_details_missing_iam_users_witness :
  verify_list_s3account_details Sample.empty_listing Sample.ct_args
    Sample.config false [] (init VNone)
  = (Raise (CTException CSM_REST_VERIFICATION_FAILED (VStr "iam_users")),
     [rest_login None;
      rest_call "get" (VStr "/api/v1/s3_accounts") None Sample.auth_headers],
     mk_self Sample.auth_headers VNone VNone).
Proof.
  apply (verify_list_s3account_details_missing_iam_users
           Sample.empty_listing Sample.ct_args Sample.config false
           [] _ (init VNone) _ [("s3_accounts", VList [])]);
    reflexivity.
Defined.


(** ** C6 *)

(** C6 fails as stated: the dict literal of [edit_user_payload] reads
    [self.config["test_s3account_password"]] before the payload type is
    looked at, so with a configuration that lacks the entry an
    unrecognized payload type raises instead of yielding [None]. *)
Lemma edit_user_payload_raises_without_password :
  ~ edit_user_payload_returns Sample.ct_args (VDict []) "bogus".
Proof.
  intro H.
  destruct (H [] (init VNone)) as [_ Hnone].
  assert (Hn : ~ In "bogus" recognized_payload_types).
  { simpl. intros [E|[E|[E|[E|[E|[]]]]]]; discriminate E. }
  specialize (Hnone Hn). vm_compute in Hnone. discriminate Hnone.
Qed.

(** C6, amended: provided the configuration defines
    [test_s3account_password], each of the five recognized payload types
    yields a dict whose keys are among [password] and [reset_access_key],
    and every other payload type yields [None] without raising. *)
Theorem edit_user_payload_with_password :
  forall (ct_args : CTError -> value -> list value) (config pw : value)
         (payload_type : string),
    getitem_str config "test_s3account_password" = Ok pw ->
    edit_user_payload_returns ct_args config payload_type.
Proof.
  intros ct_args config pw payload_type Hpw tr st.
  unfold edit_user_payload, except_Exception, try_except, bind, lift.
  rewrite Hpw. cbv zeta. split.
  - intros Hin. simpl in Hin.
    destruct Hin as [E|[E|[E|[E|[E|[]]]]]]; subst payload_type;
      (eexists; split; [vm_compute; reflexivity|]);
      intros k Hk; unfold has_key in Hk; simpl in Hk.
    + destruct (String.eqb_spec k "password"); [tauto|].
      destruct (String.eqb_spec k "reset_access_key"); [tauto|discriminate].
    + destruct (String.eqb_spec k "password"); [tauto|].
      destruct (String.eqb_spec k "reset_access_key"); [tauto|discriminate].
    + destruct (String.eqb_spec k "reset_access_key"); [tauto|discriminate].
    + destruct (String.eqb_spec k "password"); [tauto|discriminate].
    + discriminate.
  - intros Hn.
    assert (E1 : String.eqb payload_type "valid" = false)
      by (apply (eqb_of_not_in _ _ _ Hn); simpl; tauto).
    assert (E2 : String.eqb payload_type "unchanged_access" = false)
      by (apply (eqb_of_not_in _ _ _ Hn); simpl; tauto).
    assert (E3 : String.eqb payload_type "only_reset_access_key" = false)
      by (apply (eqb_of_not_in _ _ _ Hn); simpl; tauto).
    assert (E4 : String.eqb payload_type "only_password" = false)
      by (apply (eqb_of_not_in _ _ _ Hn); simpl; tauto).
    assert (E5 : String.eqb payload_type "no_payload" = false)
      by (apply (eqb_of_not_in _ _ _ Hn); simpl; tauto).
    unfold has_key, assoc. rewrite E1, E2, E3, E4, E5. reflexivity.
Qed.

Lemma edit_user_payload_with_password_witness :
  edit_user_payload_returns Sample.ct_args Sample.config "only_password".
Proof.
  apply (edit_user_payload_with_password Sample.ct_args Sample.config
           (VStr "Seagate@1") "only_password").
  reflexivity.
Defined.

(** ** C10 *)

Lemma reads_app (a b : list call) : reads (a ++ b) = (reads a + reads b)%nat.
Proof.
  unfold reads. rewrite filter_app, length_app. reflexivity.
Qed.

Lemma last_cons_head {A} (l : list A) (x d : A) :
  last (x :: l) d = last l x.
Proof.
  revert x d. induction l as [|y l IH]; intros x d; [reflexivity|].
  change (last (x :: y :: l) d) with (last (y :: l) d).
  rewrite (IH y d). symmetry. apply IH.
Qed.

Section ValidateAlertMsg.
Variable w : world.
Variables cwd content : string.
Hypothesis Hlocal : local_copy w cwd content.

Lemma validate_loop_all_found (pats : list string) :
  forallb (fun p => str_contains p content) pats = true ->
  forall response tr,
  exists tr',
    RASCoreLib.validate_loop w (temp_file_path cwd) (map VStr pats) response tr tt
    = (Ok (VTuple [VBool true; last (map VStr pats) response]), tr', tt)
    /\ reads tr' = (reads tr + length pats)%nat.
Proof.
  destruct Hlocal as (_ & _ & Hrm & _ & Hread).
  induction pats as [|p pats IH]; intros Hall response tr.
  - simpl. unfold bind, ext.
    destruct (Hrm tr (temp_file_path cwd)) as [v Hv]. rewrite Hv.
    eexists. split; [reflexivity|].
    rewrite reads_app. unfold reads; simpl; lia.
  - simpl in Hall. apply andb_prop in Hall as [Hp Hall].
    cbn [map RASCoreLib.validate_loop]. unfold bind at 1, ext at 1.
    rewrite Hread.
    unfold bind at 1, lift at 1, py_in. rewrite Hp.
    destruct (IH Hall (VStr p) (tr ++ [open_read (temp_file_path cwd)])%list)
      as [tr' [Hrun Hreads]].
    exists tr'. split.
    + rewrite Hrun. rewrite (last_cons_head (map VStr pats) (VStr p) response).
      reflexivity.
    + rewrite Hreads, reads_app. unfold reads; simpl; lia.
Qed.

Lemma validate_loop_first_missing (pre : list string) :
  forallb (fun p => str_contains p content) pre = true ->
  forall p rest response tr,
    str_contains p content = false ->
    exists tr',
      RASCoreLib.validate_loop w (temp_file_path cwd) (map VStr (pre ++ p :: rest))
                               response tr tt
      = (Ok (VTuple [VBool false; VStr p]), tr', tt)
      /\ reads tr' = (reads tr + S (length pre))%nat.
Proof.
  destruct Hlocal as (_ & _ & Hrm & _ & Hread).
  induction pre as [|q pre IH]; intros Hall p rest response tr Hp.
  - cbn [app map RASCoreLib.validate_loop]. unfold bind at 1, ext at 1.
    rewrite Hread.
    unfold bind at 1, lift at 1, py_in. rewrite Hp.
    unfold bind, ext.
    destruct (Hrm (tr ++ [open_read (temp_file_path cwd)])%list (temp_file_path cwd)) as [v Hv].
    rewrite Hv. eexists. split; [reflexivity|].
    rewrite !reads_app. unfold reads; simpl; lia.
  - simpl in Hall. apply andb_prop in Hall as [Hq Hall].
    cbn [app map RASCoreLib.validate_loop]. unfold bind at 1, ext at 1.
    rewrite Hread.
    unfold bind at 1, lift at 1, py_in. rewrite Hq.
    destruct (IH Hall p rest (VStr q) (tr ++ [open_read (temp_file_path cwd)])%list Hp)
      as [tr' [Hrun Hreads]].
    exists tr'. split; [exact Hrun|].
    rewrite Hreads, reads_app. unfold reads; simpl; lia.
Qed.

Lemma validate_alert_msg_enters_loop remote (pats : list string) tr :
  exists tr0,
    reads tr0 = reads tr
    /\ RASCoreLib.validate_alert_msg w remote (VList (map VStr pats)) tr tt
       = RASCoreLib.validate_loop w (temp_file_path cwd) (map VStr pats) VNone tr0 tt.
Proof.
  destruct Hlocal as (Hcwd & Hex & Hrm & Hcp & _).
  unfold RASCoreLib.validate_alert_msg.
  unfold bind at 1, ext at 1. rewrite Hcwd.
  unfold bind at 1, lift at 1, as_str. fold (temp_file_path cwd).
  unfold bind at 1, ext at 1.
  destruct (Hex (tr ++ [os_getcwd])%list (temp_file_path cwd)) as [v Hv]. rewrite Hv.
  unfold bind at 1.
  destruct (truthy v).
  - unfold bind at 1, ext at 1.
    destruct (Hrm ((tr ++ [os_getcwd]) ++ [os_path_exists (temp_file_path cwd)])%list
                  (temp_file_path cwd)) as [v1 Hv1].
    rewrite Hv1. unfold ret at 1.
    unfold bind at 1, ext at 1.
    match goal with |- context [w ?h (copy_s3server_file _ _)] =>
      destruct (Hcp h remote (temp_file_path cwd)) as [v2 Hv2]; rewrite Hv2 end.
    unfold bind at 1, lift at 1, py_iter.
    eexists. split; [|reflexivity].
    rewrite !reads_app. unfold reads; simpl; lia.
  - unfold ret at 1.
    unfold bind at 1, ext at 1.
    match goal with |- context [w ?h (copy_s3server_file _ _)] =>
      destruct (Hcp h remote (temp_file_path cwd)) as [v2 Hv2]; rewrite Hv2 end.
    unfold bind at 1, lift at 1, py_iter.
    eexists. split; [|reflexivity].
    rewrite !reads_app. unfold reads; simpl; lia.
Qed.

(** C10: [validate_alert_msg] checks the patterns in list order against
    the content of the fetched local copy.  When every pattern occurs in
    the content it returns [(True, p_last)], the last pattern of the list,
    and [(True, None)] for the empty list.  Otherwise it returns
    [(False, p)] for the first pattern [p] that does not occur, and has
    read the file once per pattern up to and including [p]: the patterns
    after [p] are not examined. *)
Theorem validate_alert_msg_result :
  forall (remote : value) (pats : list string) (tr : list call),
    (forallb (fun p => str_contains p content) pats = true ->
     fst (fst (RASCoreLib.validate_alert_msg w remote (VList (map VStr pats))
                                             tr tt))
     = Ok (VTuple [VBool true; last (map VStr pats) VNone]))
    /\
    (forall pre p rest,
        pats = (pre ++ p :: rest)%list ->
        forallb (fun q => str_contains q content) pre = true ->
        str_contains p content = false ->
        let run := RASCoreLib.validate_alert_msg
                     w remote (VList (map VStr pats)) tr tt in
        fst (fst run) = Ok (VTuple [VBool false; VStr p])
        /\ reads (snd (fst run)) = (reads tr + S (length pre))%nat).
Proof.
  intros remote pats tr.
  destruct (validate_alert_msg_enters_loop remote pats tr)
    as [tr0 [Hreads Henter]].
  split.
  - intros Hall. rewrite Henter.
    destruct (validate_loop_all_found pats Hall VNone tr0) as [tr' [Hrun _]].
    rewrite Hrun. reflexivity.
  - intros pre p rest -> Hpre Hp run. subst run. rewrite Henter.
    destruct (validate_loop_first_missing pre Hpre p rest VNone tr0 Hp)
      as [tr' [Hrun Hr]].
    rewrite Hrun. simpl. split; [reflexivity|]. lia.
Qed.
End ValidateAlertMsg.

Lemma alert_file_local_copy :
  local_copy Sample.alert_file "/tmp" "fan fault alert".
Proof.
  repeat split; intros; try (eexists; reflexivity).
Defined.

Lemma validate_alert_msg_result_witness :
  fst (fst (RASCoreLib.validate_alert_msg
              Sample.alert_file (VStr "/var/log/alerts")
              (VList (map VStr ["fan"; "fault"])) [] tt))
  = Ok (VTuple [VBool true; VStr "fault"])
  /\ fst (fst (RASCoreLib.validate_alert_msg
                 Sample.alert_file (VStr "/var/log/alerts")
                 (VList (map VStr ["fan"; "disk"; "alert"])) [] tt))
     = Ok (VTuple [VBool false; VStr "disk"])
  /\ reads (snd (fst (RASCoreLib.validate_alert_msg
                        Sample.alert_file (VStr "/var/log/alerts")
                        (VList (map VStr ["fan"; "disk"; "alert"])) [] tt)))
     = 2%nat.
Proof.
  split.
  - apply (proj1 (validate_alert_msg_result
                    Sample.alert_file "/tmp" "fan fault alert"
                    alert_file_local_copy (VStr "/var/log/alerts")
                    ["fan"; "fault"] [])).
    reflexivity.
  - apply (proj2 (validate_alert_msg_result
                    Sample.alert_file "/tmp" "fan fault alert"
                    alert_file_local_copy (VStr "/var/log/alerts")
                    ["fan"; "disk"; "alert"] []) ["fan"] "disk" ["alert"]);
      reflexivity.
Defined.

(** ** C4 *)

Import TestSupportBundle.

Lemma keeps_bind {St A B} (m : M St A) (k : A -> M St B) :
  keeps_state m -> (forall a, keeps_state (k a)) -> keeps_state (bind m k).
Proof.
  intros Hm Hk tr st. unfold bind.
  specialize (Hm tr st).
  destruct (m tr st) as [[[a|e|] tr'] st']; simpl in Hm; subst st';
    [apply Hk|reflexivity|reflexivity].
Qed.

Lemma keeps_lift {St A} (r : result A) : keeps_state (@lift St A r).
Proof. intros tr st; reflexivity. Qed.

Lemma keeps_ret {St A} (a : A) : keeps_state (@ret St A a).
Proof. intros tr st; reflexivity. Qed.

Lemma keeps_raise {St A} (e : exn) : keeps_state (@raise St A e).
Proof. intros tr st; reflexivity. Qed.

Lemma keeps_ext {St} w c : keeps_state (@ext St w c).
Proof. intros tr st; reflexivity. Qed.

Lemma keeps_get {St} : keeps_state (@get St).
Proof. intros tr st; reflexivity. Qed.

Ltac keeps :=
  repeat first
    [ apply keeps_lift | apply keeps_ret | apply keeps_raise
    | apply keeps_ext | apply keeps_get
    | apply keeps_bind; [|intro]
    | match goal with
      | |- keeps_state (if ?b then _ else _) => destruct b
      | |- keeps_state (match ?x with _ => _ end) => destruct x
      end ].

(** C4 (the code departs from it): no run of [create_support_bundle]
    changes a shared list.  An empty [resp_lst] is falsy, so the append is
    skipped; a non-empty one reaches [resp_lst.append(flag, output)],
    which raises [TypeError] before anything is stored. *)
Theorem create_support_bundle_never_appends :
  forall (w : world) (repr : value -> string)
         (BUNDLE_CMD success_msg bundle_name dest_dir host_ip : value)
         (resp_lst : option nat) (tr : list call) (h : heap),
    snd (create_support_bundle w repr BUNDLE_CMD success_msg bundle_name
                               dest_dir host_ip resp_lst tr h) = h.
Proof.
  intros.
  assert (K : keeps_state
                (create_support_bundle w repr BUNDLE_CMD success_msg
                   bundle_name dest_dir host_ip resp_lst)).
  { unfold create_support_bundle, remote_execution, deref, append2.
    keeps. }
  apply K.
Qed.

(** The driving test passes an empty shared list; the bundle command
    succeeds, the call returns [(True, output)], and the list is still
    empty. *)
Example create_support_bundle_empty_list :
  create_support_bundle Sample.bundle_node Sample.repr
    (VStr "sh /opt/seagate/cortx/s3/scripts/s3_bundle_generate.sh")
    (VStr "generated successfully") (VStr "bundle_0") (VStr "/tmp/bundles")
    (VStr "node1") (Some 0%nat) [] [[]]
  = (Ok (VTuple [VBool true;
                 VStr "S3 support bundle generated successfully"]),
     [run_remote_cmd
        "sh /opt/seagate/cortx/s3/scripts/s3_bundle_generate.sh bundle_0 /tmp/bundles"
        (VStr "node1")],
     [[]]).
Proof. reflexivity. Qed.

(** With an entry already in the list, the failing branch raises. *)
Example create_support_bundle_nonempty_list :
  fst (fst (create_support_bundle Sample.failing_node Sample.repr
              (VStr "sh s3_bundle_generate.sh")
              (VStr "generated successfully") (VStr "bundle_1")
              (VStr "/tmp/bundles") (VStr "node1") (Some 0%nat) []
              [[VTuple [VBool true; VStr "done"]]]))
  = Raise (type_error "append() takes exactly one argument (2 given)").
Proof. reflexivity. Qed.

(** ** C1 *)

Import RASCoreLib.






Section RemoteHelpers.
Variable w : world.
Variable repr : value -> string.
Variable cmds : commands.
Variable strs : str_methods.














End RemoteHelpers.

Lemma no_calls_bind {St A B} (m : M St A) (k : A -> M St B) :
  no_calls m -> (forall a, no_calls (k a)) -> no_calls (bind m k).
Proof.
  intros Hm Hk tr st. unfold bind.
  specialize (Hm tr st).
  destruct (m tr st) as [[[a|e|] tr'] st']; simpl in Hm; subst tr';
    [apply Hk|reflexivity|reflexivity].
Qed.

Lemma no_calls_lift {St A} (r : result A) : no_calls (@lift St A r).
Proof. intros tr st; reflexivity. Qed.

Lemma no_calls_ret {St A} (a : A) : no_calls (@ret St A a).
Proof. intros tr st; reflexivity. Qed.

Lemma no_calls_raise {St A} (e : exn) : no_calls (@raise St A e).
Proof. intros tr st; reflexivity. Qed.

Lemma no_calls_get {St} : no_calls (@get St).
Proof. intros tr st; reflexivity. Qed.

Ltac no_calls :=
  repeat first
    [ apply no_calls_lift | apply no_calls_ret | apply no_calls_raise
    | apply no_calls_get
    | apply no_calls_bind; [|intro]
    | match goal with
      | |- no_calls (if ?b then _ else _) => destruct b
      | |- no_calls (match ?x with _ => _ end) => destruct x
      end ].





(** ** C7 *)

Section FailFast.
Variable w : world.

Lemma clean_nil tr0 : clean w tr0 [].
Proof.
  intros h c rest resp E. destruct h; discriminate E.
Qed.

Lemma clean_app tr0 a b :
  clean w tr0 a -> clean w (tr0 ++ a)%list b -> clean w tr0 (a ++ b)%list.
Proof.
  intros Ha Hb h c rest resp E Hc Hw.
  apply app_eq_app in E as [l [[E1 E2]|[E1 E2]]].
  - destruct l as [|c' l].
    + rewrite app_nil_r in E1. subst a. simpl in E2.
      apply (Hb [] c rest resp); [symmetry; exact E2|exact Hc|].
      rewrite app_nil_r. exact Hw.
    + simpl in E2. injection E2 as <- E2.
      apply (Ha h c l resp); [exact E1|exact Hc|exact Hw].
  - subst h. apply (Hb l c rest resp); [exact E2|exact Hc|].
    rewrite <- app_assoc. exact Hw.
Qed.

Lemma clean_one tr0 c :
  (forall resp, is_checked_step c = true -> w tr0 c = Ok resp ->
                falsy_first resp = false) ->
  clean w tr0 [c].
Proof.
  intros H h c' rest resp E Hc Hw.
  destruct h as [|x h].
  - injection E as <- _. rewrite app_nil_r in Hw. exact (H resp Hc Hw).
  - destruct h; discriminate E.
Qed.

Lemma runs_clean_ret {A} (a : A) : runs_clean w (ret a).
Proof.
  intros tr0 st. exists []. split; [simpl; rewrite app_nil_r; reflexivity|].
  apply clean_nil.
Qed.

Lemma runs_clean_lift {A} (r : result A) : runs_clean w (lift r).
Proof.
  intros tr0 st. exists []. split; [simpl; rewrite app_nil_r; reflexivity|].
  apply clean_nil.
Qed.

Lemma runs_clean_ext c : is_checked_step c = false -> runs_clean w (ext w c).
Proof.
  intros Hc tr0 st. exists [c]. split; [reflexivity|].
  apply clean_one. intros resp Hc'. congruence.
Qed.

Lemma runs_clean_bind {A B} (m : M unit A) (k : A -> M unit B) :
  runs_clean w m -> (forall a, runs_clean w (k a)) -> runs_clean w (bind m k).
Proof.
  intros Hm Hk tr0 st. unfold bind.
  destruct (Hm tr0 st) as [c1 [E1 C1]].
  destruct (m tr0 st) as [[[a|e|] tr1] st1]; simpl in E1; subst tr1.
  - destruct (Hk a (tr0 ++ c1)%list st1) as [c2 [E2 C2]].
    exists (c1 ++ c2)%list. split.
    + rewrite E2. apply eq_sym, app_assoc.
    + apply clean_app; assumption.
  - exists c1. split; [reflexivity|exact C1].
  - exists c1. split; [reflexivity|exact C1].
Qed.

Lemma fails_fast_of_clean (m : M unit value) :
  runs_clean w m -> fails_fast w m.
Proof.
  intros H tr0 st. destruct (H tr0 st) as [c [E C]].
  exists c. split; [exact E|left; exact C].
Qed.

Lemma fails_fast_bind {A} (m : M unit A) (k : A -> M unit value) :
  runs_clean w m -> (forall a, fails_fast w (k a)) -> fails_fast w (bind m k).
Proof.
  intros Hm Hk tr0 st. unfold bind.
  destruct (Hm tr0 st) as [c1 [E1 C1]].
  destruct (m tr0 st) as [[[a|e|] tr1] st1]; simpl in E1; subst tr1.
  - destruct (Hk a (tr0 ++ c1)%list st1) as [c2 [E2 C2]].
    exists (c1 ++ c2)%list. split.
    + rewrite E2. apply eq_sym, app_assoc.
    + destruct C2 as [C2|(pre & c & resp & -> & Cp & Hw & Hr)].
      * left. apply clean_app; assumption.
      * right. exists (c1 ++ pre)%list, c, resp.
        split; [apply app_assoc|].
        split; [apply clean_app; assumption|].
        split; [rewrite app_assoc; exact Hw|exact Hr].
  - exists c1. split; [reflexivity|left; exact C1].
  - exists c1. split; [reflexivity|left; exact C1].
Qed.

(** The pattern [resp = step(); if not resp[0]: return resp; rest]. *)
Lemma fails_fast_check c (rest : M unit value) :
  fails_fast w rest ->
  fails_fast w (resp <- ext w c ;; RASCoreLib.return_if_failed resp rest).
Proof.
  intros Hrest tr0 st.
  unfold RASCoreLib.return_if_failed, bind, lift, ext, ret.
  destruct (w tr0 c) as [resp|e|] eqn:Hw.
  - destruct (getitem_int resp 0) as [ok|e|] eqn:Hok.
    + destruct (negb (truthy ok)) eqn:Hfalsy.
      * exists [c]. split; [reflexivity|].
        right. exists [], c, resp.
        split; [reflexivity|].
        split; [apply clean_nil|].
        split; [rewrite app_nil_r; exact Hw|reflexivity].
      * destruct (Hrest (tr0 ++ [c])%list st) as [c2 [E2 C2]].
        assert (C1 : clean w tr0 [c]).
        { apply clean_one. intros resp' _ Hw'.
          rewrite Hw in Hw'. injection Hw' as <-.
          unfold falsy_first. rewrite Hok. exact Hfalsy. }
        exists ([c] ++ c2)%list. split.
        -- rewrite E2. apply eq_sym, app_assoc.
        -- destruct C2 as [C2|(pre & c' & resp' & -> & Cp & Hw' & Hr)].
           ++ left. apply clean_app; assumption.
           ++ right. exists ([c] ++ pre)%list, c', resp'.
              split; [reflexivity|].
              split; [apply clean_app; assumption|].
              split; [rewrite app_assoc; exact Hw'|exact Hr].
    + exists [c]. split; [reflexivity|]. left.
      apply clean_one. intros resp' _ Hw'.
      rewrite Hw in Hw'. injection Hw' as <-.
      unfold falsy_first. rewrite Hok. reflexivity.
    + exists [c]. split; [reflexivity|]. left.
      apply clean_one. intros resp' _ Hw'.
      rewrite Hw in Hw'. injection Hw' as <-.
      unfold falsy_first. rewrite Hok. reflexivity.
  - exists [c]. split; [reflexivity|]. left.
    apply clean_one. intros resp' _ Hw'. congruence.
  - exists [c]. split; [reflexivity|]. left.
    apply clean_one. intros resp' _ Hw'. congruence.
Qed.

Lemma fails_fast_stops (m : M unit value) :
  fails_fast w m -> stops_at_failure w m.
Proof.
  intros H tr0 st r tr st' h c rest resp Hrun Htr Hc Hw Hfalsy.
  destruct (H tr0 st) as [calls [E C]].
  rewrite Hrun in E, C. simpl in E, C.
  rewrite E in Htr. apply app_inv_head in Htr.
  destruct C as [C|(pre & c' & resp' & -> & Cp & Hw' & Hr)].
  - rewrite (C h c rest resp Htr Hc Hw) in Hfalsy. discriminate Hfalsy.
  - apply app_eq_app in Htr as [l [[E1 E2]|[E1 E2]]].
    + destruct l as [|x l].
      * simpl in E2. injection E2 as <- <-.
        rewrite app_nil_r in E1. subst pre.
        rewrite Hw in Hw'. injection Hw' as <-.
        split; [reflexivity|exact Hr].
      * simpl in E2. injection E2 as <- E2.
        rewrite (Cp h c l resp E1 Hc Hw) in Hfalsy. discriminate Hfalsy.
    + destruct l as [|x l].
      * rewrite app_nil_r in E1. subst h. simpl in E2.
        injection E2 as <- <-.
        rewrite Hw in Hw'. injection Hw' as <-.
        split; [reflexivity|exact Hr].
      * exfalso. simpl in E2. injection E2 as _ E2.
        destruct l; discriminate E2.
Qed.
End FailFast.

Ltac runs_clean :=
  repeat first
    [ apply runs_clean_ret | apply runs_clean_lift
    | apply runs_clean_ext; reflexivity
    | apply runs_clean_bind; [|intro]
    | match goal with
      | |- runs_clean _ (if ?b then _ else _) => destruct b
      end ].

Lemma validate_loop_runs_clean w local_path patterns :
  forall response,
    runs_clean w (validate_loop w local_path patterns response).
Proof.
  induction patterns as [|p patterns IH]; intro response; simpl.
  - runs_clean.
  - apply runs_clean_bind; [runs_clean|intro content].
    apply runs_clean_bind; [runs_clean|intro found].
    destruct found; [apply IH|runs_clean].
Qed.

Lemma validate_alert_msg_runs_clean w remote pattern_lst :
  runs_clean w (validate_alert_msg w remote pattern_lst).
Proof.
  unfold validate_alert_msg.
  apply runs_clean_bind; [runs_clean|intro cwd].
  apply runs_clean_bind; [runs_clean|intro cwd'].
  apply runs_clean_bind; [runs_clean|intro present].
  apply runs_clean_bind; [runs_clean|intros _].
  apply runs_clean_bind; [runs_clean|intros _].
  apply runs_clean_bind; [runs_clean|intro patterns].
  apply validate_loop_runs_clean.
Qed.

Lemma alert_validation_fails_fast w cmds RAS_VAL string_list restart :
  fails_fast w (alert_validation w cmds RAS_VAL string_list restart).
Proof.
  unfold alert_validation, cfg2, execute_read.
  repeat first
    [ apply fails_fast_check
    | apply fails_fast_bind;
      [first [apply validate_alert_msg_runs_clean | runs_clean]|intro]
    | apply fails_fast_of_clean; unfold return_if_failed; runs_clean ].
Qed.

(** C7 fails as stated: when the probe for the screen utility fails,
    [run_cmd_on_screen] does not stop; it installs the utility and goes on
    to run the command. *)
Lemma run_cmd_on_screen_recovers :
  ~ stops_at_failure Sample.failing_node
      (run_cmd_on_screen Sample.failing_node Sample.cmds
                         (VStr "python3 rabbitmq_reader.py")).
Proof.
  intro H.
  destruct (H [] tt _ _ tt []
              (execute_cmd (VStr "rpm  -qa | grep screen") [])
              [execute_cmd (VStr "yum -y install screen")
                           [("read_nbytes", VInt 8000)];
               time_sleep (VInt 5);
               execute_cmd
                 (VStr "screen -d -m -L -S 'screen_RMQ' python3 rabbitmq_reader.py")
                 [("read_nbytes", VInt 8000)]]
              (VTuple [VBool false; VBytes "Connection refused"])
              eq_refl eq_refl eq_refl eq_refl eq_refl) as [E _].
  discriminate E.
Qed.

(** C7, amended: in every run of [alert_validation], a service-status
    check or a command on the node (the screen-log copy, the alert
    extraction) that returns a result with a falsy first element is the
    last call of the run, and the run returns that result: nothing is
    executed after it and it is not executed again.  ([run_cmd_on_screen],
    by contrast, installs the screen utility when its probe fails.) *)
Theorem alert_validation_stops_at_failure :
  forall (w : world) (cmds : commands) (RAS_VAL string_list : value)
         (restart : bool),
    stops_at_failure w (alert_validation w cmds RAS_VAL string_list restart).
Proof.
  intros. apply fails_fast_stops. apply alert_validation_fails_fast.
Qed.

Lemma alert_validation_stops_at_failure_witness :
  alert_validation Sample.rabbitmq_down Sample.cmds Sample.RAS_VAL
                   (VList [VStr "enclosure:fru:fan"; VStr "fault"]) true
                   [] tt
  = (Ok (VTuple [VBool false; VStr "inactive"]),
     [restart_pcs_resource (VStr "sspl-ll");
      time_sleep (VInt 120);
      get_s3server_service_status (VStr "sspl-ll");
      get_s3server_service_status (VStr "rabbitmq-server")],
     tt).
Proof.
  pose proof (alert_validation_stops_at_failure
                Sample.rabbitmq_down Sample.cmds Sample.RAS_VAL
                (VList [VStr "enclosure:fru:fan"; VStr "fault"]) true
                [] tt
                (Ok (VTuple [VBool false; VStr "inactive"]))
                [restart_pcs_resource (VStr "sspl-ll");
                 time_sleep (VInt 120);
                 get_s3server_service_status (VStr "sspl-ll");
                 get_s3server_service_status (VStr "rabbitmq-server")]
                tt
                [restart_pcs_resource (VStr "sspl-ll");
                 time_sleep (VInt 120);
                 get_s3server_service_status (VStr "sspl-ll")]
                (get_s3server_service_status (VStr "rabbitmq-server"))
                []
                (VTuple [VBool false; VStr "inactive"])
                eq_refl eq_refl eq_refl eq_refl eq_refl) as [_ _].
  reflexivity.
Defined.

(** ** C5 *)

Section Requests.
Variable w : world.
Variable verb : string.
Variable endpoint : value.

Lemma requests_only_nil : requests_only verb endpoint [].
Proof. intros v e d h []. Qed.

Lemma requests_only_app a b :
  requests_only verb endpoint a -> requests_only verb endpoint b ->
  requests_only verb endpoint (a ++ b).
Proof.
  intros Ha Hb v e d h Hin. apply in_app_or in Hin as [Hin|Hin]; eauto.
Qed.

Lemma quiet_ret {St A} (a : A) : quiet verb endpoint (@ret St A a).
Proof.
  intros tr st. exists []. split; [simpl; rewrite app_nil_r; reflexivity|].
  apply requests_only_nil.
Qed.

Lemma quiet_lift {St A} (r : result A) : quiet verb endpoint (@lift St A r).
Proof.
  intros tr st. exists []. split; [simpl; rewrite app_nil_r; reflexivity|].
  apply requests_only_nil.
Qed.

Lemma quiet_raise {St A} (e : exn) : quiet verb endpoint (@raise St A e).
Proof.
  intros tr st. exists []. split; [simpl; rewrite app_nil_r; reflexivity|].
  apply requests_only_nil.
Qed.

Lemma quiet_diverge {St A} : quiet verb endpoint (@diverge St A).
Proof.
  intros tr st. exists []. split; [simpl; rewrite app_nil_r; reflexivity|].
  apply requests_only_nil.
Qed.

Lemma quiet_get {St} : quiet verb endpoint (@get St).
Proof.
  intros tr st. exists []. split; [simpl; rewrite app_nil_r; reflexivity|].
  apply requests_only_nil.
Qed.

Lemma quiet_put {St} (s : St) : quiet verb endpoint (put s).
Proof.
  intros tr st. exists []. split; [simpl; rewrite app_nil_r; reflexivity|].
  apply requests_only_nil.
Qed.

Lemma quiet_ext {St} (c : call) :
  match c with
  | rest_call v e _ _ => v = verb /\ e = endpoint
  | _ => True
  end ->
  quiet verb endpoint (@ext St w c).
Proof.
  intros Hc tr st. exists [c]. split; [reflexivity|].
  intros v e d h [E|[]]. subst c. exact Hc.
Qed.

Lemma quiet_bind {St A B} (m : M St A) (k : A -> M St B) :
  quiet verb endpoint m -> (forall a, quiet verb endpoint (k a)) ->
  quiet verb endpoint (bind m k).
Proof.
  intros Hm Hk tr st. unfold bind.
  destruct (Hm tr st) as [c1 [E1 R1]].
  destruct (m tr st) as [[[a|e|] tr1] st1]; simpl in E1; subst tr1.
  - destruct (Hk a (tr ++ c1)%list st1) as [c2 [E2 R2]].
    exists (c1 ++ c2)%list. split.
    + rewrite E2. apply eq_sym, app_assoc.
    + apply requests_only_app; assumption.
  - exists c1. split; [reflexivity|exact R1].
  - exists c1. split; [reflexivity|exact R1].
Qed.

Lemma quiet_try_except {St A} (body : M St A) caught handler :
  quiet verb endpoint body -> (forall e, quiet verb endpoint (handler e)) ->
  quiet verb endpoint (try_except body caught handler).
Proof.
  intros Hb Hh tr st. unfold try_except.
  destruct (Hb tr st) as [c1 [E1 R1]].
  destruct (body tr st) as [[[a|e|] tr1] st1]; simpl in E1; subst tr1.
  - exists c1. split; [reflexivity|exact R1].
  - destruct (caught e).
    + destruct (Hh e (tr ++ c1)%list st1) as [c2 [E2 R2]].
      exists (c1 ++ c2)%list. split.
      * rewrite E2. apply eq_sym, app_assoc.
      * apply requests_only_app; assumption.
    + exists c1. split; [reflexivity|exact R1].
  - exists c1. split; [reflexivity|exact R1].
Qed.





End Requests.


Lemma string_app_nil_r (s : string) : s ++ "" = s.
Proof. induction s as [|c s IH]; simpl; [|rewrite IH]; reflexivity. Qed.

(** ["{}/{}".format(endpoint, username)]. *)
Lemma user_endpoint_run repr config ep username tr st :
  getitem_str config "s3accounts_endpoint" = Ok ep ->
  user_endpoint repr config username tr st
  = (Ok (VStr (py_str repr ep ++ "/" ++ py_str repr username)), tr, st).
Proof.
  intros Hep. unfold user_endpoint, bind, lift, ret. rewrite Hep.
  simpl. rewrite string_app_nil_r. reflexivity.
Qed.


Ltac quiet :=
  repeat first
    [ apply quiet_ret | apply quiet_lift | apply quiet_raise
    | apply quiet_diverge | apply quiet_get | apply quiet_put
    | apply quiet_ext; exact I
    | apply quiet_bind; [|intro]
    | apply quiet_try_except; [|intro]
    | match goal with
      | |- quiet _ _ (if ?b then _ else _) => destruct b
      | |- quiet _ _ (match ?x with _ => _ end) => destruct x
      end ].

Section Wrappers.
Variable w : world.
Variable ct_args : CTError -> value -> list value.
Variable repr : value -> string.
Variable config : value.
Variable ep : value.
Hypothesis Hep : getitem_str config "s3accounts_endpoint" = Ok ep.







End Wrappers.


(** The calls of one [edit_s3_account_user]. *)
Example edit_s3_account_user_trace :
  snd (fst (edit_s3_account_user Sample.no_secret_key Sample.ct_args
              Sample.repr Sample.config (VStr "test1600000000")
              "only_password" (Some "new_s3_account_user") []
              (init VNone)))
  = [rest_login (Some "new_s3_account_user");
     rest_call "patch" (VStr "/api/v1/s3_accounts/test1600000000")
               (Some (VDict [("password", VStr "Seagate@1")]))
               Sample.auth_headers].
Proof. reflexivity. Qed.

(** ** C2 *)

(** An exception with a non-empty [args] raised by the request is
    re-raised as a [CTException] with the authentication error code. *)
Lemma list_all_created_s3account_wraps :
  forall (w : world) (ct_args : CTError -> value -> list value)
         (config ep hdrs a : value) (e : exn) (login_as : option string)
         (tr : list call) (st : self),
    w tr (rest_login login_as) = Ok hdrs ->
    getitem_str config "s3accounts_endpoint" = Ok ep ->
    w (tr ++ [rest_login login_as])%list (rest_call "get" ep None hdrs)
    = Raise e ->
    args0 ct_args e = Ok a ->
    fst (fst (list_all_created_s3account w ct_args config login_as tr st))
    = Raise (CTException CSM_REST_AUTHENTICATION_ERROR a).
Proof.
  intros w ct_args config ep hdrs a e login_as tr st Hlogin Hep Hcall Hargs.
  unfold list_all_created_s3account, authenticate_and_login,
    except_BaseException, try_except, set_headers, bind, ext, get, put, lift.
  rewrite Hlogin. simpl. rewrite Hep. simpl. rewrite Hcall.
  rewrite raise_CTException_run, Hargs. reflexivity.
Qed.

(** C2 (the code departs from it): when the request is interrupted by an
    exception whose [args] tuple is empty, here [KeyboardInterrupt()], the
    handler's own [error.args[0]] raises [IndexError], and that is what
    leaves each of the five operations instead of a [CTException]. *)
Theorem interrupted_request_raises_IndexError :
  let escaped : result value :=
    Raise (PyExc IndexError [VStr "tuple index out of range"]) in
  fst (fst (create_s3_account Sample.interrupted Sample.ct_args
              Sample.config "valid" false None [] (init VNone))) = escaped
  /\ fst (fst (list_all_created_s3account Sample.interrupted Sample.ct_args
                 Sample.config None [] (init VNone))) = escaped
  /\ fst (fst (edit_s3_account_user Sample.interrupted Sample.ct_args
                 Sample.repr Sample.config (VStr "test1600000000") "valid"
                 None [] (init VNone))) = escaped
  /\ fst (fst (delete_s3_account_user Sample.interrupted Sample.ct_args
                 Sample.repr Sample.config (VStr "test1600000000") None []
                 (init VNone))) = escaped
  /\ fst (fst (edit_s3_account_user_invalid_password Sample.interrupted
                 Sample.ct_args Sample.repr Sample.config
                 (VStr "test1600000000")
                 (VDict [("password", VStr "x")]) None [] (init VNone)))
     = escaped.
Proof. repeat split. Qed.

(** ** C3 *)

(** The presence check lets a response through as soon as one of the two
    keys is there. *)
Lemma keys_absent_with_access_key_only (d : list (string * value)) :
  has_key const.ACCESS_KEY d = true ->
  keys_absent (VDict d) = Ok false.
Proof.
  intros H. unfold keys_absent, py_in. rewrite H. reflexivity.
Qed.

(** C3 (the code departs from it): the response JSON carries [access_key]
    and lacks [secret_key], and both verification routines return [True].
    The check joins the two absence tests with [and], so it only rejects a
    response that lacks both keys. *)
Theorem verification_accepts_missing_secret_key :
  has_key const.SECRET_KEY
          [("account_name", VStr "test1600000000");
           ("account_email", VStr "test1600000000@seagate.com");
           ("access_key", VStr "AKIAEXAMPLE")] = false
  /\ fst (fst (create_and_verify_s3account Sample.no_secret_key
                 Sample.ct_args Sample.config Sample.verify_json_response
                 "valid" (VInt 200) [] (init VNone)))
     = Ok (VBool true)
  /\ fst (fst (edit_and_verify_s3_account_user Sample.no_secret_key
                 Sample.ct_args Sample.repr Sample.config "valid" []
                 (init VNone)))
     = Ok (VBool true).
Proof. repeat split. Qed.

(** * Further properties *)

(** ** [create_and_verify_s3account] *)

Lemma existsb_eqb_not_in (s : string) (l : list string) :
  ~ In s l -> existsb (String.eqb s) l = false.
Proof.
  induction l as [|x l IH]; intros Hn; [reflexivity|].
  simpl. rewrite (eqb_of_not_in s x (x :: l) Hn (or_introl eq_refl)).
  apply IH. intro Hin. apply Hn. right. exact Hin.
Qed.

(** X1: a user type outside [self.user_type] is turned down with [False]
    before anything is sent, although the payload builder knows two of
    them ("pre-define", "invalid_for_ui"). *)
Theorem create_and_verify_s3account_unlisted_user :
  forall (w : world) (ct_args : CTError -> value -> list value)
         (config : value) (verify : value -> value -> result value)
         (user : string) (expect_status_code : value)
         (tr : list call) (st : self),
    ~ In user ["valid"; "duplicate"; "invalid"; "missing"] ->
    create_and_verify_s3account w ct_args config verify user
                                expect_status_code tr st
    = (Ok (VBool false), tr, st).
Proof.
  intros w ct_args config verify user expect tr st Hn.
  unfold create_and_verify_s3account, except_Exception, try_except.
  unfold user_type. rewrite (existsb_eqb_not_in user _ Hn). reflexivity.
Qed.

Lemma create_and_verify_s3account_unlisted_user_witness :
  create_and_verify_s3account Sample.no_secret_key Sample.ct_args
    Sample.config Sample.verify_json_response "pre-define" (VInt 200) []
    (init VNone)
  = (Ok (VBool false), [], init VNone).
Proof.
  apply create_and_verify_s3account_unlisted_user.
  simpl. intros [H|[H|[H|[H|[]]]]]; discriminate H.
Defined.

(** X2: an error of the inner request wrapper does not keep its error
    code: when [create_s3_account] raises a [CTException],
    [create_and_verify_s3account] raises one with the verification code,
    carrying the first argument of the inner exception. *)
Theorem create_and_verify_s3account_relabels_errors :
  forall (w : world) (ct_args : CTError -> value -> list value)
         (config : value) (verify : value -> value -> result value)
         (user : string) (expect_status_code : value)
         (tr tr' : list call) (st st' : self)
         (code : CTError) (msg a : value) (rest : list value),
    In user ["valid"; "duplicate"; "invalid"; "missing"] ->
    create_s3_account w ct_args config user false None tr st
    = (Raise (CTException code msg), tr', st') ->
    ct_args code msg = a :: rest ->
    create_and_verify_s3account w ct_args config verify user
                                expect_status_code tr st
    = (Raise (CTException CSM_REST_VERIFICATION_FAILED a), tr', st').
Proof.
  intros w ct_args config verify user expect tr tr' st st' code msg a rest
         Hin Hrun Hargs.
  unfold create_and_verify_s3account, except_Exception, try_except.
  assert (E : existsb (String.eqb user) user_type = true).
  { apply existsb_exists. exists user. split; [exact Hin|].
    apply String.eqb_refl. }
  rewrite E. cbn [negb]. unfold bind at 1. rewrite Hrun.
  cbn [is_Exception]. rewrite raise_CTException_run.
  unfold args0. rewrite Hargs. reflexivity.
Qed.

Lemma create_and_verify_s3account_relabels_errors_witness :
  fst (fst (create_and_verify_s3account Scenarios.refused Sample.ct_args
              Sample.config Sample.verify_json_response "invalid" (VInt 400)
              [] (init VNone)))
  = Raise (CTException CSM_REST_VERIFICATION_FAILED
             (VStr "Connection refused")).
Proof.
  erewrite (create_and_verify_s3account_relabels_errors
              Scenarios.refused Sample.ct_args Sample.config
              Sample.verify_json_response "invalid" (VInt 400) [] _
              (init VNone) _ CSM_REST_AUTHENTICATION_ERROR
              (VStr "Connection refused") (VStr "Connection refused") []);
    [reflexivity|simpl; tauto|reflexivity|reflexivity].
Defined.

(** ** [create_s3_account] *)

(** X3: asked to save the new user, [create_s3_account] reads
    [user_data["account_name"]] before the request; the payloads of the
    "missing" and "invalid" user types have no such key, so nothing is
    posted and the [KeyError] leaves as a [CTException] with the
    authentication code. *)
Theorem create_s3_account_save_needs_account_name :
  forall (w : world) (ct_args : CTError -> value -> list value)
         (config ep pw hdrs : value) (utype : string)
         (login_as : option string) (tr : list call) (st : self),
    utype = "missing" \/ utype = "invalid" ->
    w tr (rest_login login_as) = Ok hdrs ->
    getitem_str config "s3accounts_endpoint" = Ok ep ->
    getitem_str config "test_s3account_password" = Ok pw ->
    fst (create_s3_account w ct_args config utype true login_as tr st)
    = (Raise (CTException CSM_REST_AUTHENTICATION_ERROR
                (VStr "account_name")),
       (tr ++ [rest_login login_as])%list).
Proof.
  intros w ct_args config ep pw hdrs utype login_as tr st Hu Hlogin Hep Hpw.
  unfold create_s3_account. cbn [create_s3_account_fuel].
  unfold authenticate_and_login, except_BaseException, try_except,
    set_headers, set_recently.
  unfold bind at 1, ext at 1. rewrite Hlogin.
  destruct Hu as [-> | ->];
    unfold create_payload_for_new_s3_account, except_Exception, try_except;
    cbn; rewrite Hep; cbn; try rewrite Hpw; cbn;
    try rewrite raise_CTException_run; reflexivity.
Qed.

Lemma create_s3_account_save_needs_account_name_witness :
  fst (create_s3_account Sample.no_secret_key Sample.ct_args Sample.config
                         "missing" true None [] (init VNone))
  = (Raise (CTException CSM_REST_AUTHENTICATION_ERROR (VStr "account_name")),
     [rest_login None]).
Proof.
  apply (create_s3_account_save_needs_account_name
           Sample.no_secret_key Sample.ct_args Sample.config
           (VStr "/api/v1/s3_accounts") (VStr "Seagate@1")
           Sample.auth_headers "missing" None [] (init VNone));
    [left; reflexivity|reflexivity|reflexivity|reflexivity].
Defined.

(** X4: [recently_created_s3_account_user] is assigned before the
    request is sent.  After [create_s3_account("valid")] it holds the
    payload built from the two clock readings, whatever the request
    returned or raised. *)
Theorem create_s3_account_records_payload_first :
  forall (w : world) (ct_args : CTError -> value -> list value)
         (config ep pw hdrs : value) (t1 t2 : Z)
         (login_as : option string) (tr : list call) (st : self),
    w tr (rest_login login_as) = Ok hdrs ->
    getitem_str config "s3accounts_endpoint" = Ok ep ->
    getitem_str config "test_s3account_password" = Ok pw ->
    w (tr ++ [rest_login login_as])%list time_time = Ok (VInt t1) ->
    w ((tr ++ [rest_login login_as]) ++ [time_time])%list time_time
    = Ok (VInt t2) ->
    recently_created_s3_account_user
      (snd (create_s3_account w ct_args config "valid" false login_as tr st))
    = VDict [("account_name", VStr ("test" ++ str_of_Z t1));
             ("account_email",
              VStr ("test" ++ str_of_Z t2 ++ "@seagate.com"));
             ("password", pw)].
Proof.
  intros w ct_args config ep pw hdrs t1 t2 login_as tr st
         Hlogin Hep Hpw Ht1 Ht2.
  unfold create_s3_account. cbn [create_s3_account_fuel].
  unfold authenticate_and_login, except_BaseException,
    create_payload_for_new_s3_account, except_Exception, try_except,
    set_headers, set_recently, int_time, local.
  unfold bind, ext, lift, ret, get, put, raise.
  rewrite Hlogin. simpl. rewrite Hep. simpl. rewrite Ht1. simpl.
  rewrite Ht2. simpl. rewrite Hpw. simpl.
  match goal with
  | |- context [w ?h (rest_call ?v ?e ?d ?hd)] =>
      destruct (w h (rest_call v e d hd)) as [a|e0|]
  end; simpl; try reflexivity.
  rewrite raise_CTException_run.
  destruct (args0 ct_args e0); reflexivity.
Qed.

Lemma create_s3_account_records_payload_first_witness :
  recently_created_s3_account_user
    (snd (create_s3_account Scenarios.refused Sample.ct_args Sample.config
                            "valid" false None [] (init VNone)))
  = VDict [("account_name", VStr "test1600000000");
           ("account_email", VStr "test1600000000@seagate.com");
           ("password", VStr "Seagate@1")].
Proof.
  apply (create_s3_account_records_payload_first
           Scenarios.refused Sample.ct_args Sample.config
           (VStr "/api/v1/s3_accounts") (VStr "Seagate@1")
           Sample.auth_headers 1600000000 1600000000 None [] (init VNone));
    reflexivity.
Defined.

(** X5: for the "duplicate" user type the account is posted twice with
    one and the same payload: [create_payload_for_new_s3_account] first
    creates a "valid" account through a nested [create_s3_account()] and
    hands its payload back.  The nested call logs in as the default user
    and overwrites [self.headers], so the second request also goes out
    with the headers of that login, not with those of [login_as]. *)
Theorem create_s3_account_duplicate_posts_twice :
  forall (w : world) (ct_args : CTError -> value -> list value)
         (config ep pw h1 h2 r1 : value) (t1 t2 : Z)
         (login_as : option string) (tr : list call) (st : self),
    let payload :=
      VDict [("account_name", VStr ("test" ++ str_of_Z t1));
             ("account_email",
              VStr ("test" ++ str_of_Z t2 ++ "@seagate.com"));
             ("password", pw)] in
    let first_post := rest_call "post" ep (Some payload) h2 in
    getitem_str config "s3accounts_endpoint" = Ok ep ->
    getitem_str config "test_s3account_password" = Ok pw ->
    w tr (rest_login login_as) = Ok h1 ->
    w (tr ++ [rest_login login_as])%list (rest_login None) = Ok h2 ->
    w (tr ++ [rest_login login_as; rest_login None])%list time_time
    = Ok (VInt t1) ->
    w (tr ++ [rest_login login_as; rest_login None; time_time])%list
      time_time = Ok (VInt t2) ->
    w (tr ++ [rest_login login_as; rest_login None; time_time; time_time])%list
      first_post = Ok r1 ->
    snd (fst (create_s3_account w ct_args config "duplicate" false login_as
                                tr st))
    = (tr ++ [rest_login login_as; rest_login None; time_time; time_time;
              first_post; rest_call "post" ep (Some payload) h2])%list.
Proof.
  intros w ct_args config ep pw h1 h2 r1 t1 t2 login_as tr st payload
         first_post Hep Hpw Hl1 Hl2 Ht1 Ht2 Hpost.
  subst payload first_post.
  change (tr ++ [rest_login login_as; rest_login None])%list
    with (tr ++ [rest_login login_as] ++ [rest_login None])%list in Ht1.
  change (tr ++ [rest_login login_as; rest_login None; time_time])%list
    with (tr ++ [rest_login login_as] ++ [rest_login None] ++ [time_time])%list
    in Ht2.
  change (tr ++ [rest_login login_as; rest_login None; time_time;
                 time_time])%list
    with (tr ++ [rest_login login_as] ++ [rest_login None] ++ [time_time]
             ++ [time_time])%list in Hpost.
  repeat rewrite app_assoc in Ht1.
  repeat rewrite app_assoc in Ht2.
  repeat rewrite app_assoc in Hpost.
  unfold create_s3_account. cbn [create_s3_account_fuel].
  unfold authenticate_and_login, except_BaseException,
    create_payload_for_new_s3_account, except_Exception, try_except,
    set_headers, set_recently, int_time, local.
  unfold bind, ext, lift, ret, get, put, raise.
  rewrite Hl1. simpl. rewrite Hep. simpl. rewrite Hl2. simpl.
  rewrite Ht1. simpl. rewrite Ht2. simpl. rewrite Hpw. simpl.
  simpl in Hpost. rewrite Hpost. simpl.
  match goal with
  | |- context [w ?h (rest_call ?v ?e ?d ?hd)] =>
      destruct (w h (rest_call v e d hd)) as [a|e0|]
  end; simpl;
    try rewrite raise_CTException_run; simpl;
    rewrite <- !app_assoc; reflexivity.
Qed.

Lemma create_s3_account_duplicate_posts_twice_witness :
  snd (fst (create_s3_account Sample.no_secret_key Sample.ct_args
              Sample.config "duplicate" false (Some "new_s3_account_user")
              [] (init VNone)))
  = [rest_login (Some "new_s3_account_user"); rest_login None;
     time_time; time_time;
     rest_call "post" (VStr "/api/v1/s3_accounts")
       (Some (VDict [("account_name", VStr "test1600000000");
                     ("account_email", VStr "test1600000000@seagate.com");
                     ("password", VStr "Seagate@1")]))
       Sample.auth_headers;
     rest_call "post" (VStr "/api/v1/s3_accounts")
       (Some (VDict [("account_name", VStr "test1600000000");
                     ("account_email", VStr "test1600000000@seagate.com");
                     ("password", VStr "Seagate@1")]))
       Sample.auth_headers].
Proof.
  apply (create_s3_account_duplicate_posts_twice
           Sample.no_secret_key Sample.ct_args Sample.config
           (VStr "/api/v1/s3_accounts") (VStr "Seagate@1")
           Sample.auth_headers Sample.auth_headers
           (VResp 200 (Some Sample.account_without_secret))
           1600000000 1600000000 (Some "new_s3_account_user") []
           (init VNone)); reflexivity.
Defined.

(** ** [verify_list_s3account_details] *)

Lemma py_all_account_keys (ds : list (list (string * value))) :
  py_all (fun key =>
            match py_in (VStr const.ACC_NAME) key with
            | Ok true => py_in (VStr const.ACC_EMAIL) key
            | r => r
            end) (map VDict ds)
  = Ok (forallb (fun d => has_key const.ACC_NAME d
                          && has_key const.ACC_EMAIL d) ds).
Proof.
  induction ds as [|d ds IH]; [reflexivity|].
  cbn [map py_all forallb]. unfold py_in at 1.
  destruct (has_key const.ACC_NAME d); [|reflexivity].
  unfold py_in at 1.
  destruct (has_key const.ACC_EMAIL d); [exact IH|reflexivity].
Qed.

(** X6: on a well-formed 200 listing, [verify_list_s3account_details]
    answers as follows.  With no account listed it returns
    [expect_no_user], so an empty listing fails unless it was expected;
    with accounts listed it returns [False] when none was expected and
    otherwise whether every entry has both an account name and an account
    email. *)
Theorem verify_list_s3account_details_table :
  forall (w : world) (ct_args : CTError -> value -> list value)
         (config : value) (expect_no_user : bool)
         (tr tr' : list call) (st st' : self) (d : list (string * value))
         (accounts : list (list (string * value))) (iam_users : list value),
    list_all_created_s3account w ct_args config None tr st
    = (Ok (VResp 200 (Some (VDict d))), tr', st') ->
    assoc "s3_accounts" d = Some (VList (map VDict accounts)) ->
    assoc "iam_users" d = Some (VList iam_users) ->
    verify_list_s3account_details w ct_args config expect_no_user tr st
    = (Ok (VBool
             (match accounts with
              | [] => expect_no_user
              | _ :: _ =>
                  negb expect_no_user
                  && forallb (fun a => has_key "account_name" a
                                       && has_key "account_email" a)
                             accounts
              end)),
       tr', st').
Proof.
  intros w ct_args config expect_no_user tr tr' st st' d accounts iam_users
         Hlist Hacc Hiam.
  unfold verify_list_s3account_details, except_Exception, try_except.
  unfold bind at 1. rewrite Hlist.
  unfold bind, lift, ret, not_status, json_of, py_in, getitem_str, has_key,
    py_len, py_iter, const.S3_ACCOUNTS.
  simpl. rewrite Hacc, Hiam. simpl.
  destruct accounts as [|a accounts].
  - simpl. destruct expect_no_user; reflexivity.
  - cbn [map length]. rewrite Nat2Z.inj_succ.
    assert (E : (Z.succ (Z.of_nat (length (map VDict accounts))) =? 0) = false)
      by (apply Z.eqb_neq; lia).
    rewrite E. cbn [orb andb].
    destruct expect_no_user; [reflexivity|].
    cbn [negb andb].
    change (VDict a :: map VDict accounts) with (map VDict (a :: accounts)).
    rewrite py_all_account_keys. reflexivity.
Qed.

Lemma verify_list_s3account_details_table_witness :
  fst (fst (verify_list_s3account_details Scenarios.listing
              Sample.ct_args Sample.config false [] (init VNone)))
  = Ok (VBool true).
Proof.
  erewrite (verify_list_s3account_details_table
              Scenarios.listing Sample.ct_args Sample.config false [] _
              (init VNone) _ _
              [[("account_name", VStr "alice");
                ("account_email", VStr "alice@seagate.com")]]
              []);
    reflexivity.
Defined.

(** X7: a response that is falsy (a client or server error status, or no
    response object at all) or has a status other than 200 makes
    [verify_list_s3account_details] return [False]; its body is not
    read. *)
Theorem verify_list_s3account_details_not_200 :
  forall (w : world) (ct_args : CTError -> value -> list value)
         (config response : value) (expect_no_user : bool)
         (tr tr' : list call) (st st' : self),
    list_all_created_s3account w ct_args config None tr st
    = (Ok response, tr', st') ->
    truthy response = false
    \/ (exists status body, response = VResp status body /\ status <> 200) ->
    verify_list_s3account_details w ct_args config expect_no_user tr st
    = (Ok (VBool false), tr', st').
Proof.
  intros w ct_args config response expect_no_user tr tr' st st' Hlist Hbad.
  unfold verify_list_s3account_details, except_Exception, try_except.
  unfold bind at 1. rewrite Hlist.
  unfold bind, lift, ret, not_status.
  destruct Hbad as [Hfalsy | (status & body & -> & Hne)].
  - rewrite Hfalsy. reflexivity.
  - destruct (truthy (VResp status body)); [|reflexivity].
    apply Z.eqb_neq in Hne. cbn [negb status_code_of py_eq].
    unfold const.SUCCESS_STATUS. rewrite Hne. reflexivity.
Qed.

Lemma verify_list_s3account_details_not_200_witness :
  fst (fst (verify_list_s3account_details Scenarios.unavailable
              Sample.ct_args Sample.config true [] (init VNone)))
  = Ok (VBool false).
Proof.
  erewrite (verify_list_s3account_details_not_200
              Scenarios.unavailable Sample.ct_args Sample.config
              (VResp 503 None) true [] _ (init VNone) _);
    [reflexivity|reflexivity|].
  left. reflexivity.
Defined.

(** ** [edit_and_verify_s3_account_user] *)

(** X8: for a payload type other than "valid", "unchanged_access" and
    "only_password" (so also for one that [edit_user_payload] does not
    know and sends as [None]), the edit is verified by its rejection: the
    routine returns [True] exactly when the status of the edit response
    is 400. *)
Theorem edit_and_verify_expects_bad_request :
  forall (w : world) (ct_args : CTError -> value -> list value)
         (repr : value -> string) (config : value) (user_payload : string)
         (created name : value) (status : Z) (body : option value)
         (tr tr1 tr2 : list call) (st st1 st2 : self),
    ~ In user_payload ["unchanged_access"; "only_password"; "valid"] ->
    create_s3_account w ct_args config "valid" true None tr st
    = (Ok created, tr1, st1) ->
    getitem_str (recently_created_s3_account_user st1) "account_name"
    = Ok name ->
    edit_s3_account_user w ct_args repr config name user_payload
                         (Some "new_s3_account_user") tr1 st1
    = (Ok (VResp status body), tr2, st2) ->
    edit_and_verify_s3_account_user w ct_args repr config user_payload tr st
    = (Ok (VBool (status =? 400)), tr2, st2).
Proof.
  intros w ct_args repr config user_payload created name status body
         tr tr1 tr2 st st1 st2 Hn Hcreate Hname Hedit.
  assert (E1 := eqb_of_not_in user_payload "unchanged_access" _ Hn
                  (or_introl eq_refl)).
  assert (E2 := eqb_of_not_in user_payload "only_password" _ Hn
                  (or_intror (or_introl eq_refl))).
  assert (E3 := eqb_of_not_in user_payload "valid" _ Hn
                  (or_intror (or_intror (or_introl eq_refl)))).
  unfold edit_and_verify_s3_account_user, except_Exception, try_except.
  unfold bind at 1. rewrite Hcreate.
  unfold bind at 1, get at 1. unfold bind at 1, lift at 1. rewrite Hname.
  unfold bind at 1. rewrite Hedit.
  rewrite E1, E2, E3. cbn [orb negb].
  unfold truthy, resp_ok, bind, lift, ret, status_code_of,
    const.BAD_REQUEST.
  destruct (400 <=? status) eqn:Hlo; destruct (status <? 600) eqn:Hhi;
    cbn [andb negb]; try reflexivity.
  - assert (E : (status =? 400) = false) by (apply Z.eqb_neq; lia).
    rewrite E. reflexivity.
  - assert (E : (status =? 400) = false) by (apply Z.eqb_neq; lia).
    rewrite E. reflexivity.
  - assert (E : (status =? 400) = false) by (apply Z.eqb_neq; lia).
    rewrite E. reflexivity.
Qed.

Lemma edit_and_verify_expects_bad_request_witness :
  fst (fst (edit_and_verify_s3_account_user Scenarios.rejects_edit
              Sample.ct_args Sample.repr Sample.config "no_such_payload" []
              (init VNone)))
  = Ok (VBool true).
Proof.
  erewrite (edit_and_verify_expects_bad_request
              Scenarios.rejects_edit Sample.ct_args Sample.repr Sample.config
              "no_such_payload" _ (VStr "test1600000000") 400 None
              [] _ _ (init VNone) _ _);
    [reflexivity| |reflexivity|reflexivity|reflexivity].
  simpl. intros [H|[H|[H|[]]]]; discriminate H.
Defined.

(** X9: for "unchanged_access" and "only_password" a 200 response passes
    only if it names the edited account and shows neither an access key
    nor a secret key. *)
Theorem edit_and_verify_keeps_keys_hidden :
  forall (w : world) (ct_args : CTError -> value -> list value)
         (repr : value -> string) (config : value) (user_payload : string)
         (created name shown : value) (d : list (string * value))
         (tr tr1 tr2 : list call) (st st1 st2 : self),
    user_payload = "unchanged_access" \/ user_payload = "only_password" ->
    create_s3_account w ct_args config "valid" true None tr st
    = (Ok created, tr1, st1) ->
    getitem_str (recently_created_s3_account_user st1) "account_name"
    = Ok name ->
    edit_s3_account_user w ct_args repr config name user_payload
                         (Some "new_s3_account_user") tr1 st1
    = (Ok (VResp 200 (Some (VDict d))), tr2, st2) ->
    assoc "account_name" d = Some shown ->
    edit_and_verify_s3_account_user w ct_args repr config user_payload tr st
    = (Ok (VBool (py_eq shown name
                  && negb (has_key "access_key" d)
                  && negb (has_key "secret_key" d))),
       tr2, st2).
Proof.
  intros w ct_args repr config user_payload created name shown d
         tr tr1 tr2 st st1 st2 Hp Hcreate Hname Hedit Hshown.
  unfold edit_and_verify_s3_account_user, except_Exception, try_except.
  unfold bind at 1. rewrite Hcreate.
  unfold bind at 1, get at 1. unfold bind at 1, lift at 1. rewrite Hname.
  unfold bind at 1. rewrite Hedit.
  assert (E : String.eqb user_payload "unchanged_access"
              || String.eqb user_payload "only_password" = true)
    by (destruct Hp as [-> | ->]; reflexivity).
  rewrite E.
  unfold bind, lift, ret, not_status, json_of, getitem_str, py_in,
    const.ACC_NAME, const.ACCESS_KEY, const.SECRET_KEY.
  cbn [truthy resp_ok status_code_of py_eq]. simpl (negb _).
  rewrite Hshown.
  destruct (py_eq shown name); [|reflexivity].
  destruct (has_key "access_key" d); [reflexivity|].
  destruct (has_key "secret_key" d); reflexivity.
Qed.

Lemma edit_and_verify_keeps_keys_hidden_witness :
  fst (fst (edit_and_verify_s3_account_user Scenarios.hides_keys
              Sample.ct_args Sample.repr Sample.config "only_password" []
              (init VNone))) = Ok (VBool true)
  /\ fst (fst (edit_and_verify_s3_account_user Sample.no_secret_key
                 Sample.ct_args Sample.repr Sample.config "only_password" []
                 (init VNone))) = Ok (VBool false).
Proof.
  split.
  - erewrite (edit_and_verify_keeps_keys_hidden
                Scenarios.hides_keys Sample.ct_args Sample.repr Sample.config
                "only_password" _ (VStr "test1600000000")
                (VStr "test1600000000")
                [("account_name", VStr "test1600000000")]
                [] _ _ (init VNone) _ _);
      [reflexivity|right; reflexivity|reflexivity|reflexivity|reflexivity
      |reflexivity].
  - erewrite (edit_and_verify_keeps_keys_hidden
                Sample.no_secret_key Sample.ct_args Sample.repr Sample.config
                "only_password" _ (VStr "test1600000000")
                (VStr "test1600000000")
                [("account_name", VStr "test1600000000");
                 ("account_email", VStr "test1600000000@seagate.com");
                 ("access_key", VStr "AKIAEXAMPLE")]
                [] _ _ (init VNone) _ _);
      [reflexivity|right; reflexivity|reflexivity|reflexivity|reflexivity
      |reflexivity].
Defined.

(** ** [delete_and_verify_s3_account_user] *)

Import RestS3userDelete.

(** X10: the deletion of the freshly created account counts as verified
    exactly when the delete response has status 200 and its JSON message
    equals [DELETE_SUCCESS_MSG]. *)
Theorem delete_and_verify_needs_success_message :
  forall (w : world) (ct_args : CTError -> value -> list value)
         (repr : value -> string) (config success_msg : value)
         (created name message : value) (status : Z)
         (d : list (string * value))
         (tr tr1 tr2 : list call) (st st1 st2 : self),
    create_s3_account w ct_args config "valid" true None tr st
    = (Ok created, tr1, st1) ->
    getitem_str (recently_created_s3_account_user st1) "account_name"
    = Ok name ->
    delete_s3_account_user w ct_args repr config name
                           (Some "new_s3_account_user") tr1 st1
    = (Ok (VResp status (Some (VDict d))), tr2, st2) ->
    assoc "message" d = Some message ->
    delete_and_verify_s3_account_user w ct_args repr config success_msg tr st
    = (Ok (VBool ((status =? 200) && py_eq message success_msg)), tr2, st2).
Proof.
  intros w ct_args repr config success_msg created name message status d
         tr tr1 tr2 st st1 st2 Hcreate Hname Hdelete Hmsg.
  unfold delete_and_verify_s3_account_user, except_Exception, try_except.
  unfold bind at 1. rewrite Hcreate.
  unfold bind at 1, get at 1. unfold bind at 1, lift at 1. rewrite Hname.
  unfold bind at 1. rewrite Hdelete.
  unfold bind, lift, ret, not_status, json_of, getitem_str,
    const.SUCCESS_STATUS.
  cbn [truthy status_code_of py_eq]. unfold resp_ok.
  destruct (status =? 200) eqn:Hs.
  - apply Z.eqb_eq in Hs. subst status. simpl. rewrite Hmsg. reflexivity.
  - destruct (negb (negb ((400 <=? status) && (status <? 600))));
      reflexivity.
Qed.

Lemma delete_and_verify_needs_success_message_witness :
  fst (fst (delete_and_verify_s3_account_user Scenarios.hides_keys
              Sample.ct_args Sample.repr Sample.config
              (VStr "Account Deleted Successfully.") [] (init VNone)))
  = Ok (VBool true).
Proof.
  erewrite (delete_and_verify_needs_success_message
              Scenarios.hides_keys Sample.ct_args Sample.repr Sample.config
              (VStr "Account Deleted Successfully.") _
              (VStr "test1600000000")
              (VStr "Account Deleted Successfully.") 200
              [("message", VStr "Account Deleted Successfully.")]
              [] _ _ (init VNone) _ _);
    reflexivity.
Defined.

(** X11: for the payload type "valid", a 200 response to the edit passes
    when it shows an access key or a secret key (one of the two is
    enough) and names the edited account; a response without the
    account name fails without raising. *)
Theorem edit_and_verify_valid_needs_one_key :
  forall (w : world) (ct_args : CTError -> value -> list value)
         (repr : value -> string) (config : value)
         (created name : value) (d : list (string * value))
         (tr tr1 tr2 : list call) (st st1 st2 : self),
    create_s3_account w ct_args config "valid" true None tr st
    = (Ok created, tr1, st1) ->
    getitem_str (recently_created_s3_account_user st1) "account_name"
    = Ok name ->
    edit_s3_account_user w ct_args repr config name "valid"
                         (Some "new_s3_account_user") tr1 st1
    = (Ok (VResp 200 (Some (VDict d))), tr2, st2) ->
    edit_and_verify_s3_account_user w ct_args repr config "valid" tr st
    = (Ok (VBool ((has_key "access_key" d || has_key "secret_key" d)
                  && match assoc "account_name" d with
                     | Some shown => py_eq shown name
                     | None => false
                     end)),
       tr2, st2).
Proof.
  intros w ct_args repr config created name d tr tr1 tr2 st st1 st2
         Hcreate Hname Hedit.
  unfold edit_and_verify_s3_account_user, except_Exception, try_except.
  unfold bind at 1. rewrite Hcreate.
  unfold bind at 1, get at 1. unfold bind at 1, lift at 1. rewrite Hname.
  unfold bind at 1. rewrite Hedit.
  unfold bind, lift, ret, not_status, json_of, getitem_str, keys_absent,
    py_in, has_key, const.ACC_NAME, const.ACCESS_KEY, const.SECRET_KEY.
  cbn [truthy resp_ok status_code_of py_eq String.eqb]. simpl (negb _).
  destruct (assoc "access_key" d); destruct (assoc "secret_key" d);
    destruct (assoc "account_name" d); reflexivity.
Qed.

Lemma edit_and_verify_valid_needs_one_key_witness :
  fst (fst (edit_and_verify_s3_account_user Sample.no_secret_key
              Sample.ct_args Sample.repr Sample.config "valid" []
              (init VNone))) = Ok (VBool true).
Proof.
  erewrite (edit_and_verify_valid_needs_one_key
              Sample.no_secret_key Sample.ct_args Sample.repr Sample.config
              _ (VStr "test1600000000")
              [("account_name", VStr "test1600000000");
               ("account_email", VStr "test1600000000@seagate.com");
               ("access_key", VStr "AKIAEXAMPLE")]
              [] _ _ (init VNone) _ _);
    reflexivity.
Defined.

(** ** [create_and_verify_s3account], the other user types *)

(** X12: for the user types "duplicate", "invalid" and "missing" the
    verification is the comparison of the status code alone: the body of
    the response is not looked at, and a refusal counts as a pass when
    its status is the expected one. *)
Theorem create_and_verify_s3account_compares_status :
  forall (w : world) (ct_args : CTError -> value -> list value)
         (config : value)
         (verify : value -> value -> result value)
         (user : string) (expect : value) (status : Z) (body : option value)
         (tr tr1 : list call) (st st1 : self),
    In user ["duplicate"; "invalid"; "missing"] ->
    create_s3_account w ct_args config user false None tr st
    = (Ok (VResp status body), tr1, st1) ->
    create_and_verify_s3account w ct_args config verify user expect tr st
    = (Ok (VBool (py_eq (VInt status) expect)), tr1, st1).
Proof.
  intros w ct_args config verify user expect status body tr tr1 st st1
         Hin Hcreate.
  assert (E : existsb (String.eqb user) user_type = true
              /\ String.eqb user "valid" = false).
  { simpl in Hin. destruct Hin as [<-|[<-|[<-|[]]]]; split; reflexivity. }
  destruct E as [E1 E2].
  unfold create_and_verify_s3account, except_Exception, try_except.
  rewrite E1. cbn [negb].
  unfold bind at 1. rewrite Hcreate. rewrite E2. reflexivity.
Qed.

Lemma create_and_verify_s3account_compares_status_witness :
  fst (fst (create_and_verify_s3account Scenarios.unavailable Sample.ct_args
              Sample.config Sample.verify_json_response "missing" (VInt 503)
              [] (init VNone))) = Ok (VBool true).
Proof.
  erewrite (create_and_verify_s3account_compares_status
              Scenarios.unavailable Sample.ct_args Sample.config
              Sample.verify_json_response "missing" (VInt 503) 503 None
              [] _ (init VNone) _);
    [reflexivity|simpl; tauto|reflexivity].
Defined.

(** ** [validate_exec_time] *)

Import RASService.

Lemma split_ws_length (s : string) :
  forall cur, (length (split_ws s cur) <= spaces s + 1)%nat.
Proof.
  unfold spaces.
  induction s as [|c s IH]; intro cur.
  - simpl. destruct (String.eqb cur ""); simpl; lia.
  - cbn [split_ws list_ascii_of_string filter].
    destruct (is_space c).
    + destruct (String.eqb cur "").
      * specialize (IH ""). simpl. lia.
      * specialize (IH ""). simpl. lia.
    + apply IH.
Qed.

(** The character a field being read starts with: that of [cur], or the
    first one of [s] that is not white space. *)
Lemma split_ws_head (s : string) :
  forall cur t rest,
    split_ws s cur = t :: rest ->
    exists c t',
      t = String c t'
      /\ match cur with
         | String c' _ => c' = c
         | EmptyString => first_char s = Some c
         end.
Proof.
  unfold first_char.
  induction s as [|a s IH]; intros cur t rest H.
  - simpl in H. destruct cur as [|c' cur'].
    + discriminate H.
    + simpl in H. injection H as <- _. exists c', cur'. split; reflexivity.
  - cbn [split_ws] in H. cbn [list_ascii_of_string find].
    destruct (is_space a) eqn:Ha.
    + destruct cur as [|c' cur'].
      * simpl in H. cbn [negb]. apply (IH "" t rest H).
      * simpl in H. injection H as <- _. exists c', cur'. split; reflexivity.
    + cbn [negb]. destruct cur as [|c' cur'].
      * destruct (IH _ _ _ H) as (c & t' & Ht & Hc). simpl in Hc.
        exists c, t'. split; [exact Ht|]. rewrite Hc. reflexivity.
      * destruct (IH _ _ _ H) as (c & t' & Ht & Hc). simpl in Hc.
        exists c, t'. split; [exact Ht|exact Hc].
Qed.

(** X13: a time text of one-byte characters with fewer than two
    white-space characters has fewer than three fields and is accepted,
    whatever it says: the text comes back with [True]. *)
Theorem validate_exec_time_few_fields :
  forall time_str : string,
    ascii_only time_str = true ->
    (spaces time_str < 2)%nat ->
    validate_exec_time time_str = Ok (VTuple [VBool true; VStr time_str]).
Proof.
  intros time_str _ Hfew.
  unfold validate_exec_time, py_split.
  pose proof (split_ws_length time_str "") as Hlen.
  assert (E : (length (split_ws time_str "") <? 3)%nat = true)
    by (apply Nat.ltb_lt; lia).
  rewrite E. reflexivity.
Qed.

Lemma validate_exec_time_few_fields_witness :
  validate_exec_time "999h 59min"
  = Ok (VTuple [VBool true; VStr "999h 59min"]).
Proof.
  apply validate_exec_time_few_fields; [reflexivity|].
  unfold spaces. simpl. lia.
Defined.

(** X14: with three fields or more, the verdict rests on the first
    character of the text that is not white space, and on nothing else:
    a digit below 3 gives [True], a digit from 3 up gives [False], and
    any other character makes [int] raise [ValueError].  The function
    never fails with [IndexError]. *)
Theorem validate_exec_time_first_digit :
  forall time_str : string,
    ascii_only time_str = true ->
    (3 <= length (py_split time_str))%nat ->
    exists c,
      first_char time_str = Some c
      /\ validate_exec_time time_str
         = match int_of_char c with
           | Ok n => Ok (VTuple [VBool (n <? 3); VStr time_str])
           | Raise e => Raise e
           | Diverge => Diverge
           end.
Proof.
  intros time_str _ Hmany.
  unfold validate_exec_time.
  assert (E : (length (py_split time_str) <? 3)%nat = false)
    by (apply Nat.ltb_ge; exact Hmany).
  rewrite E. unfold py_split in *.
  destruct (split_ws time_str "") as [|t rest] eqn:Hs.
  - simpl in Hmany. lia.
  - destruct (split_ws_head _ _ _ _ Hs) as (c & t' & -> & Hc).
    exists c. split; [exact Hc|].
    destruct (int_of_char c) as [n|e|]; [|reflexivity|reflexivity].
    destruct (n <? 3); reflexivity.
Qed.

Lemma validate_exec_time_first_digit_witness :
  validate_exec_time "25 s 300 ms"
  = Ok (VTuple [VBool true; VStr "25 s 300 ms"])
  /\ validate_exec_time "3 ms 0 us"
     = Ok (VTuple [VBool false; VStr "3 ms 0 us"]).
Proof.
  split.
  - destruct (validate_exec_time_first_digit "25 s 300 ms")
      as (c & Hc & Hr); [reflexivity|simpl; lia|].
    injection Hc as <-. exact Hr.
  - destruct (validate_exec_time_first_digit "3 ms 0 us")
      as (c & Hc & Hr); [reflexivity|simpl; lia|].
    injection Hc as <-. exact Hr.
Defined.

(** ** [get_sspl_state] *)

(** X15: the state is read off the output of the command alone.  The
    flag the command came back with is not looked at: the answer is
    [(True, "active")] exactly when the text after the last [=] is
    [active], also for a command that failed. *)
Theorem get_sspl_state_ignores_command_flag :
  forall (w : world) (cmds : commands) (strs : str_methods)
         (SSPL_STATE_CMD : value) (decode_utf8 : string -> result string)
         (flag : value) (output text state : string) (pre : list string)
         (tr : list call),
    w tr (execute_cmd SSPL_STATE_CMD [("read_nbytes", BYTES_TO_READ cmds)])
    = Ok (VTuple [flag; VBytes output]) ->
    decode_utf8 output = Ok text ->
    split strs (strip strs text) "=" = (pre ++ [state])%list ->
    get_sspl_state w cmds strs SSPL_STATE_CMD decode_utf8 tr tt
    = (Ok (VTuple [VBool (String.eqb state "active"); VStr state]),
       (tr ++ [execute_cmd SSPL_STATE_CMD
                           [("read_nbytes", BYTES_TO_READ cmds)]])%list,
       tt).
Proof.
  intros w cmds strs SSPL_STATE_CMD decode_utf8 flag output text state pre
         tr Hw Hdec Hsplit.
  unfold get_sspl_state, execute_read.
  unfold bind at 1, ext at 1. rewrite Hw.
  unfold bind at 1, lift at 1. cbn [getitem_int nth_error].
  unfold bind at 1, lift at 1, decode. rewrite Hdec.
  unfold bind at 1, lift at 1, last_item.
  rewrite Hsplit, rev_unit.
  unfold ret. cbn [py_eq].
  destruct (String.eqb state "active"); reflexivity.
Qed.

Lemma get_sspl_state_ignores_command_flag_witness :
  fst (fst (get_sspl_state Scenarios.stale_state Sample.cmds Scenarios.strs
              (VStr "cat /var/cortx/sspl/data/state.txt") (fun b => Ok b)
              [] tt))
  = Ok (VTuple [VBool true; VStr "active"]).
Proof.
  rewrite (get_sspl_state_ignores_command_flag
             Scenarios.stale_state Sample.cmds Scenarios.strs
             (VStr "cat /var/cortx/sspl/data/state.txt") (fun b => Ok b)
             (VBool false) "state=active" "state=active" "active" ["state"]
             []);
    reflexivity.
Defined.

(** ** [restart_service] and [enable_disable_service] *)

Lemma status_after_wait_nil secs : status_after_wait secs [].
Proof.
  intros pre service rest H. destruct pre; discriminate H.
Qed.

Lemma status_query_last (a : list call) (c : call) :
  forall pre service rest,
    (forall s, c <> get_s3server_service_status s) ->
    (forall s, ~ In (get_s3server_service_status s) a) ->
    (a ++ [c])%list
    = (pre ++ get_s3server_service_status service :: rest)%list ->
    False.
Proof.
  intros pre service rest Hc Ha H.
  assert (I : In (get_s3server_service_status service) (a ++ [c])%list).
  { rewrite H. apply in_or_app. right. left. reflexivity. }
  apply in_app_or in I. destruct I as [I|[I|[]]].
  - exact (Ha _ I).
  - exact (Hc _ I).
Qed.

Lemma status_after_wait_snoc secs (a : list call) (service : value) :
  (forall s, ~ In (get_s3server_service_status s) a) ->
  status_after_wait secs
    ((a ++ [time_sleep (VInt secs)])
       ++ [get_s3server_service_status service])%list.
Proof.
  intros Ha pre service' rest H.
  destruct rest as [|r rest].
  - apply app_inj_tail in H as [<- _]. split; [reflexivity|].
    exists a. reflexivity.
  - exfalso.
    rewrite (app_removelast_last r (l := r :: rest)) in H by discriminate.
    change (pre ++ get_s3server_service_status service'
                :: (removelast (r :: rest) ++ [last (r :: rest) r]))%list
      with (pre ++ (get_s3server_service_status service'
                      :: removelast (r :: rest))
                ++ [last (r :: rest) r])%list in H.
    rewrite app_assoc in H. apply app_inj_tail in H as [H _].
    apply (status_query_last a (time_sleep (VInt secs)) pre service'
                             (removelast (r :: rest)));
      [intros s E; discriminate E|exact Ha|exact H].
Qed.

(** A command, a wait and the status query, as both helpers run them. *)
Lemma wait_then_status (w : world) (first : call) (secs : Z)
      (service : value) (tr : list call) :
  (forall s, first <> get_s3server_service_status s) ->
  forall res tr',
    (ext w first ;;;
     ext w (time_sleep (VInt secs)) ;;;
     status <- ext w (get_s3server_service_status service) ;;
     ret status) tr tt = (res, tr', tt) ->
    exists calls,
      tr' = (tr ++ calls)%list
      /\ status_after_wait secs calls
      /\ forall r, res = Ok r ->
                   exists pre,
                     calls
                     = (pre ++ [get_s3server_service_status service])%list
                     /\ w (tr ++ pre)%list
                          (get_s3server_service_status service) = Ok r.
Proof.
  intros Hfirst res tr' Hrun.
  assert (One : status_after_wait secs [first]).
  { intros pre s rest H. exfalso.
    apply (status_query_last [] first pre s rest Hfirst);
      [intros ? []|exact H]. }
  assert (Two : status_after_wait secs [first; time_sleep (VInt secs)]).
  { intros pre s rest H. exfalso.
    apply (status_query_last [first] (time_sleep (VInt secs)) pre s rest);
      [intros s' E; discriminate E
      |intros s' [E|[]]; exact (Hfirst _ E)|exact H]. }
  unfold bind, ext, ret in Hrun.
  destruct (w tr first) as [r1|e|];
    [|injection Hrun as <- <-; exists [first]; split; [reflexivity|split;
        [exact One|intros r E; discriminate E]]
     |injection Hrun as <- <-; exists [first]; split; [reflexivity|split;
        [exact One|intros r E; discriminate E]]].
  destruct (w (tr ++ [first])%list (time_sleep (VInt secs))) as [r2|e|];
    [|injection Hrun as <- <-; exists [first; time_sleep (VInt secs)];
      split; [rewrite <- app_assoc; reflexivity|split;
        [exact Two|intros r E; discriminate E]]
     |injection Hrun as <- <-; exists [first; time_sleep (VInt secs)];
      split; [rewrite <- app_assoc; reflexivity|split;
        [exact Two|intros r E; discriminate E]]].
  exists (([first] ++ [time_sleep (VInt secs)])
            ++ [get_s3server_service_status service])%list.
  split; [|split].
  - destruct (w _ (get_s3server_service_status service));
      injection Hrun as _ <-; rewrite <- !app_assoc; reflexivity.
  - apply status_after_wait_snoc. intros s [E|[]]. exact (Hfirst _ E).
  - intros r ->.
    exists [first; time_sleep (VInt secs)].
    split; [reflexivity|].
    change (tr ++ [first; time_sleep (VInt secs)])%list
      with (tr ++ [first] ++ [time_sleep (VInt secs)])%list.
    rewrite app_assoc.
    destruct (w _ (get_s3server_service_status service)) as [v|e|];
      [injection Hrun as -> _; reflexivity
      |discriminate Hrun|discriminate Hrun].
Qed.

(** X16: [restart_service] and [enable_disable_service] never query the
    service status before they have waited (60 and 30 seconds): in every
    run the status query, if it is made at all, is the last call and
    comes directly after the wait; a run that returns hands back the
    answer to that query, whatever the restart or the command
    returned. *)
Theorem service_status_is_read_after_the_wait :
  forall (w : world) (pcs : list value -> result string)
         (operation service : value) (tr : list call),
    (forall res tr',
        restart_service w service tr tt = (res, tr', tt) ->
        exists calls,
          tr' = (tr ++ calls)%list
          /\ status_after_wait 60 calls
          /\ forall r, res = Ok r ->
                       exists pre,
                         calls
                         = (pre ++ [get_s3server_service_status service])%list
                         /\ w (tr ++ pre)%list
                              (get_s3server_service_status service) = Ok r)
    /\
    (forall res tr',
        enable_disable_service w pcs operation service tr tt
        = (res, tr', tt) ->
        exists calls,
          tr' = (tr ++ calls)%list
          /\ status_after_wait 30 calls
          /\ forall r, res = Ok r ->
                       exists pre,
                         calls
                         = (pre ++ [get_s3server_service_status service])%list
                         /\ w (tr ++ pre)%list
                              (get_s3server_service_status service) = Ok r).
Proof.
  intros w pcs operation service tr. split.
  - intros res tr' Hrun.
    apply (wait_then_status w (restart_pcs_resource service) 60 service tr);
      [intros s E; discriminate E|exact Hrun].
  - intros res tr' Hrun.
    unfold enable_disable_service in Hrun.
    unfold bind at 1, lift at 1 in Hrun.
    destruct (pcs [operation; service]) as [command|e|].
    + apply (wait_then_status
               w (execute_cmd (VStr command) [("read_lines", VBool true)])
               30 service tr);
        [intros s E; discriminate E|exact Hrun].
    + injection Hrun as <- <-. exists []. split; [|split].
      * rewrite app_nil_r. reflexivity.
      * apply status_after_wait_nil.
      * intros r E. discriminate E.
    + injection Hrun as <- <-. exists []. split; [|split].
      * rewrite app_nil_r. reflexivity.
      * apply status_after_wait_nil.
      * intros r E. discriminate E.
Qed.

Lemma service_status_is_read_after_the_wait_witness :
  restart_service Sample.rabbitmq_down (VStr "rabbitmq-server") [] tt
  = (Ok (VTuple [VBool false; VStr "inactive"]),
     [restart_pcs_resource (VStr "rabbitmq-server");
      time_sleep (VInt 60);
      get_s3server_service_status (VStr "rabbitmq-server")],
     tt)
  /\ status_after_wait 60
       [restart_pcs_resource (VStr "rabbitmq-server");
        time_sleep (VInt 60);
        get_s3server_service_status (VStr "rabbitmq-server")].
Proof.
  split; [reflexivity|].
  destruct (proj1 (service_status_is_read_after_the_wait
                     Sample.rabbitmq_down
                     (fun _ => Ok "pcs resource enable rabbitmq-server")
                     (VStr "enable") (VStr "rabbitmq-server") [])
                  _ _ eq_refl) as (calls & E & H & _).
  simpl in E. subst calls. exact H.
Defined.

(** ** [validate_alert_msg], the local copy *)

Lemma validate_loop_removes_copy (w : world) (path : string)
      (patterns : list value) :
  forall response tr v tr',
    validate_loop w path patterns response tr tt = (Ok v, tr', tt) ->
    exists pre b x,
      tr' = (tr ++ pre ++ [os_remove path])%list
      /\ v = VTuple [VBool b; x].
Proof.
  induction patterns as [|pattern rest IH]; intros response tr v tr' Hrun.
  - cbn [validate_loop] in Hrun. unfold bind, ext, ret in Hrun.
    destruct (w tr (os_remove path)); [|discriminate Hrun|discriminate Hrun].
    injection Hrun as <- <-. exists [], true, response.
    split; reflexivity.
  - cbn [validate_loop] in Hrun. unfold bind at 1, ext at 1 in Hrun.
    destruct (w tr (open_read path)) as [content|e|];
      [|discriminate Hrun|discriminate Hrun].
    unfold bind at 1, lift at 1 in Hrun.
    destruct (py_in pattern content) as [[|]|e|];
      [| |discriminate Hrun|discriminate Hrun].
    + destruct (IH _ _ _ _ Hrun) as (pre & b & x & -> & ->).
      exists (open_read path :: pre), b, x.
      split; [rewrite <- app_assoc; reflexivity|reflexivity].
    + unfold bind, ext, ret in Hrun.
      destruct (w _ (os_remove path)); [|discriminate Hrun|discriminate Hrun].
      injection Hrun as <- <-. exists [open_read path], false, pattern.
      split; [rewrite <- app_assoc; reflexivity|reflexivity].
Qed.

(** X17: whenever [validate_alert_msg] returns, whether with a match or
    a mismatch, the last thing it did was to remove its local copy
    [temp_file] in the working directory, and what it returns is a pair
    of a boolean and a value. *)
Theorem validate_alert_msg_removes_local_copy :
  forall (w : world) (remote_file_path pattern_lst v : value)
         (tr tr' : list call),
    validate_alert_msg w remote_file_path pattern_lst tr tt
    = (Ok v, tr', tt) ->
    exists cwd pre b x,
      w tr os_getcwd = Ok (VStr cwd)
      /\ tr' = (tr ++ pre ++ [os_remove (temp_file_path cwd)])%list
      /\ v = VTuple [VBool b; x].
Proof.
  intros w remote_file_path pattern_lst v tr tr' Hrun.
  unfold validate_alert_msg in Hrun.
  unfold bind at 1, ext at 1 in Hrun.
  destruct (w tr os_getcwd) as [cwd|e|] eqn:Hcwd;
    [|discriminate Hrun|discriminate Hrun].
  unfold bind at 1, lift at 1 in Hrun.
  destruct (as_str cwd) as [dir|e|] eqn:Hdir;
    [|discriminate Hrun|discriminate Hrun].
  destruct cwd; try discriminate Hdir. injection Hdir as ->.
  fold (temp_file_path dir) in Hrun.
  unfold bind at 1, ext at 1 in Hrun.
  destruct (w _ (os_path_exists (temp_file_path dir))) as [present|e|];
    [|discriminate Hrun|discriminate Hrun].
  unfold bind at 1 in Hrun.
  assert (Loop : forall tr1,
             (patterns <- lift (py_iter pattern_lst) ;;
              validate_loop w (temp_file_path dir) patterns VNone) tr1 tt
             = (Ok v, tr', tt) ->
             exists pre b x,
               tr' = (tr1 ++ pre ++ [os_remove (temp_file_path dir)])%list
               /\ v = VTuple [VBool b; x]).
  { intros tr1 H. unfold bind at 1, lift at 1 in H.
    destruct (py_iter pattern_lst) as [patterns|e|];
      [|discriminate H|discriminate H].
    exact (validate_loop_removes_copy _ _ _ _ _ _ _ H). }
  exists dir.
  destruct (truthy present).
  - unfold bind at 1, ext at 1 in Hrun.
    destruct (w _ (os_remove (temp_file_path dir)));
      [|discriminate Hrun|discriminate Hrun].
    unfold ret at 1 in Hrun.
    unfold bind at 1, ext at 1 in Hrun.
    destruct (w _ (copy_s3server_file _ _));
      [|discriminate Hrun|discriminate Hrun].
    destruct (Loop _ Hrun) as (pre & b & x & -> & ->).
    exists ([os_getcwd; os_path_exists (temp_file_path dir);
             os_remove (temp_file_path dir);
             copy_s3server_file remote_file_path (temp_file_path dir)]
              ++ pre)%list, b, x.
    split; [reflexivity|split; [|reflexivity]].
    rewrite <- !app_assoc. reflexivity.
  - unfold ret at 1 in Hrun.
    unfold bind at 1, ext at 1 in Hrun.
    destruct (w _ (copy_s3server_file _ _));
      [|discriminate Hrun|discriminate Hrun].
    destruct (Loop _ Hrun) as (pre & b & x & -> & ->).
    exists ([os_getcwd; os_path_exists (temp_file_path dir);
             copy_s3server_file remote_file_path (temp_file_path dir)]
              ++ pre)%list, b, x.
    split; [reflexivity|split; [|reflexivity]].
    rewrite <- !app_assoc. reflexivity.
Qed.

Lemma validate_alert_msg_removes_local_copy_witness :
  exists pre,
    snd (fst (validate_alert_msg Sample.alert_file (VStr "/var/log/alerts")
                (VList [VStr "fan"; VStr "disk"]) [] tt))
    = (pre ++ [os_remove "/tmp/temp_file"])%list.
Proof.
  destruct (validate_alert_msg_removes_local_copy
              Sample.alert_file (VStr "/var/log/alerts")
              (VList [VStr "fan"; VStr "disk"]) _ [] _ eq_refl)
    as (cwd & pre & b & x & Hcwd & Htr & _).
  injection Hcwd as <-. exists pre. exact Htr.
Defined.

(** ** [alert_validation] without a restart *)

Section NeverCalls.
Variable bad : call -> bool.

Lemma never_ret {St A} (a : A) : never_calls bad (@ret St A a).
Proof.
  intros tr st. exists []. split; [simpl; rewrite app_nil_r|]; reflexivity.
Qed.

Lemma never_lift {St A} (r : result A) : never_calls bad (@lift St A r).
Proof.
  intros tr st. exists []. split; [simpl; rewrite app_nil_r|]; reflexivity.
Qed.

Lemma never_ext {St} (w : world) (c : call) :
  bad c = false -> never_calls bad (@ext St w c).
Proof.
  intros Hc tr st. exists [c]. split; [reflexivity|].
  simpl. rewrite Hc. reflexivity.
Qed.

Lemma never_bind {St A B} (m : M St A) (k : A -> M St B) :
  never_calls bad m -> (forall a, never_calls bad (k a)) ->
  never_calls bad (bind m k).
Proof.
  intros Hm Hk tr st. unfold bind.
  destruct (Hm tr st) as (c1 & E1 & F1).
  destruct (m tr st) as [[[a|e|] tr1] st1]; simpl in E1; subst tr1.
  - destruct (Hk a (tr ++ c1)%list st1) as (c2 & E2 & F2).
    exists (c1 ++ c2)%list. split.
    + rewrite E2, app_assoc. reflexivity.
    + rewrite forallb_app, F1, F2. reflexivity.
  - exists c1. split; [reflexivity|exact F1].
  - exists c1. split; [reflexivity|exact F1].
Qed.
End NeverCalls.

Ltac never_calls :=
  repeat first
    [ apply never_lift | apply never_ret
    | apply never_ext; reflexivity
    | apply never_bind; [|intro]
    | match goal with
      | |- never_calls _ (if ?b then _ else _) => destruct b
      | |- never_calls _ (match ?x with _ => _ end) => destruct x
      end ].

Lemma validate_loop_never_restarts (w : world) (path : string)
      (patterns : list value) :
  forall response,
    never_calls is_restart (validate_loop w path patterns response).
Proof.
  induction patterns as [|pattern rest IH]; intro response;
    cbn [validate_loop].
  - never_calls.
  - apply never_bind; [never_calls|intro content].
    apply never_bind; [never_calls|intros [|]]; [apply IH|never_calls].
Qed.

Lemma validate_alert_msg_never_restarts (w : world)
      (remote_file_path pattern_lst : value) :
  never_calls is_restart (validate_alert_msg w remote_file_path pattern_lst).
Proof.
  unfold validate_alert_msg.
  repeat first
    [ apply validate_loop_never_restarts
    | apply never_lift | apply never_ret
    | apply never_ext; reflexivity
    | apply never_bind; [|intro]
    | match goal with
      | |- never_calls _ (if ?b then _ else _) => destruct b
      end ].
Qed.

(** X18: called with [restart=False], [alert_validation] never restarts
    a cluster resource, whatever the node answers and however far the run
    gets. *)
Theorem alert_validation_restarts_only_on_request :
  forall (w : world) (cmds : commands) (RAS_VAL string_list : value),
    never_calls is_restart
      (alert_validation w cmds RAS_VAL string_list false).
Proof.
  intros w cmds RAS_VAL string_list.
  unfold alert_validation, return_if_failed, cfg2, execute_read.
  repeat first
    [ apply validate_alert_msg_never_restarts
    | apply never_lift | apply never_ret
    | apply never_ext; reflexivity
    | apply never_bind; [|intro]
    | match goal with
      | |- never_calls _ (if ?b then _ else _) => destruct b
      end ].
Qed.

(** ** [create_support_bundle], the verdict *)

Lemma bundle_command_format (repr : value -> string)
      (BUNDLE_CMD bundle_name dest_dir : value) :
  str_format repr "{} {} {}" [BUNDLE_CMD; bundle_name; dest_dir]
  = Ok (bundle_command repr BUNDLE_CMD bundle_name dest_dir).
Proof.
  unfold bundle_command. simpl. rewrite string_app_nil_r. reflexivity.
Qed.

(** X19: when the node answers the bundle command with a pair
    [(flag, output)], a call without a shared list, or with an empty
    one, returns [(True, output)] exactly when the flag is true and the
    success message occurs in [str(output)], and [(False, output)]
    otherwise: a true flag alone is not enough.  With a non-empty shared
    list the call raises [TypeError] in both cases.  One command is
    run. *)
Theorem create_support_bundle_verdict :
  forall (w : world) (repr : value -> string)
         (BUNDLE_CMD bundle_name dest_dir host_ip flag output : value)
         (success_msg : string) (resp_lst : option nat)
         (tr : list call) (h : heap),
    let final_cmd := bundle_command repr BUNDLE_CMD bundle_name dest_dir in
    w tr (run_remote_cmd final_cmd host_ip) = Ok (VTuple [flag; output]) ->
    create_support_bundle w repr BUNDLE_CMD (VStr success_msg) bundle_name
                          dest_dir host_ip resp_lst tr h
    = (match resp_lst with
       | Some l =>
           match nth l h [] with
           | [] =>
               Ok (VTuple [VBool (truthy flag
                                  && str_contains success_msg
                                       (py_str repr output));
                           output])
           | _ :: _ =>
               Raise (type_error
                        "append() takes exactly one argument (2 given)")
           end
       | None =>
           Ok (VTuple [VBool (truthy flag
                              && str_contains success_msg
                                   (py_str repr output));
                       output])
       end,
       (tr ++ [run_remote_cmd final_cmd host_ip])%list, h).
Proof.
  intros w repr BUNDLE_CMD bundle_name dest_dir host_ip flag output
         success_msg resp_lst tr h final_cmd Hw.
  unfold create_support_bundle, remote_execution.
  rewrite bundle_command_format. fold final_cmd.
  unfold bind at 1, lift at 1.
  unfold bind at 1, ext at 1. rewrite Hw.
  unfold bind at 1, lift at 1. cbn [getitem_int nth_error].
  destruct (truthy flag); cbn [andb].
  - cbv [bind lift ret deref get append2 raise py_in resp_lst_truthy
         getitem_int nth_error].
    destruct (str_contains success_msg (py_str repr output));
      destruct resp_lst as [l|]; try reflexivity;
      destruct (nth l h []); reflexivity.
  - cbv [bind lift ret deref get append2 raise py_in resp_lst_truthy
         getitem_int nth_error].
    destruct resp_lst as [l|]; try reflexivity;
      destruct (nth l h []); reflexivity.
Qed.

Lemma create_support_bundle_verdict_witness :
  fst (fst (create_support_bundle Sample.bundle_node Sample.repr
              (VStr "sh s3_bundle_generate.sh") (VStr "bundle generated!")
              (VStr "bundle_0") (VStr "/tmp/bundles") (VStr "node1") None
              [] []))
  = Ok (VTuple [VBool false;
                VStr "S3 support bundle generated successfully"]).
Proof.
  rewrite (create_support_bundle_verdict
             Sample.bundle_node Sample.repr
             (VStr "sh s3_bundle_generate.sh") (VStr "bundle_0")
             (VStr "/tmp/bundles") (VStr "node1") (VBool true)
             (VStr "S3 support bundle generated successfully")
             "bundle generated!" None [] []);
    reflexivity.
Defined.

(** ** The loop of [test_dest_has_less_space_5274] *)

Import TestDestHasLessSpace.

Lemma create_support_bundle_one_command (w : world) (repr : value -> string)
      (BUNDLE_CMD success_msg bundle_name dest_dir host_ip : value)
      (resp_lst : option nat) (tr : list call) (h : heap) :
  exists calls,
    snd (fst (create_support_bundle w repr BUNDLE_CMD success_msg bundle_name
                                    dest_dir host_ip resp_lst tr h))
    = (tr ++ calls)%list
    /\ (length calls <= 1)%nat.
Proof.
  unfold create_support_bundle, remote_execution.
  rewrite bundle_command_format.
  unfold bind at 1, lift at 1. unfold bind at 1, ext at 1.
  destruct (w tr _) as [resp|e|];
    [|eexists; split; [reflexivity|simpl; lia]
     |eexists; split; [reflexivity|simpl; lia]].
  match goal with
  | |- exists _, snd (fst (?k ?t ?s)) = _ /\ _ =>
      assert (T : no_calls k) by (unfold deref, append2; no_calls);
      rewrite (T t s)
  end.
  eexists. split; [reflexivity|simpl; lia].
Qed.

Lemma bundle_loop_one_command (w : world) (repr : value -> string)
      (BUNDLE_CMD success_msg : value)
      (assert_false : value -> value -> M heap unit)
      (test_cfg dir_path host_ip : value) :
  fails_when_true assert_false ->
  forall idxs tr h,
  exists calls,
    snd (fst (bundle_loop w repr BUNDLE_CMD success_msg assert_false
                          test_cfg dir_path host_ip idxs tr h))
    = (tr ++ calls)%list
    /\ (length calls <= 1)%nat.
Proof.
  intros Hassert [|i rest] tr h.
  - exists []. split; [simpl; rewrite app_nil_r; reflexivity|simpl; lia].
  - cbn [bundle_loop].
    unfold bind at 1, lift at 1.
    destruct (getitem_str test_cfg "bundle_prefix") as [prefix|e|];
      [|exists []; split; [simpl; rewrite app_nil_r; reflexivity|simpl; lia]
       |exists []; split; [simpl; rewrite app_nil_r; reflexivity|simpl; lia]].
    unfold bind at 1, lift at 1.
    destruct (str_format repr "{}_{}" [prefix; VStr (str_of_Z i)])
      as [bundle_name|e|];
      [|exists []; split; [simpl; rewrite app_nil_r; reflexivity|simpl; lia]
       |exists []; split; [simpl; rewrite app_nil_r; reflexivity|simpl; lia]].
    unfold bind at 1.
    destruct (create_support_bundle_one_command
                w repr BUNDLE_CMD success_msg (VStr bundle_name) dir_path
                host_ip None tr h) as (calls & Htr & Hlen).
    destruct (create_support_bundle w repr BUNDLE_CMD success_msg
                (VStr bundle_name) dir_path host_ip None tr h)
      as [[[resp|e|] tr1] h1]; simpl in Htr; subst tr1;
      [|exists calls; split; [reflexivity|exact Hlen]
       |exists calls; split; [reflexivity|exact Hlen]].
    unfold bind at 1, lift at 1.
    destruct (getitem_int resp 0) as [ok|e|];
      [|exists calls; split; [reflexivity|exact Hlen]
       |exists calls; split; [reflexivity|exact Hlen]].
    destruct (truthy ok) eqn:Hok; cbn [negb];
      [|exists calls; split; [reflexivity|exact Hlen]].
    unfold bind at 1, lift at 1.
    unfold bind at 1, lift at 1.
    destruct (getitem_int resp 1) as [msg|e|];
      [|exists calls; split; [reflexivity|exact Hlen]
       |exists calls; split; [reflexivity|exact Hlen]].
    unfold bind at 1.
    destruct (Hassert ok msg (tr ++ calls)%list h1 Hok) as [e He].
    rewrite He. exists calls. split; [reflexivity|exact Hlen].
Qed.

(** X20: provided [assert_false] fails on a true condition, the loop of
    [test_dest_has_less_space_5274] asks for one bundle at most, whatever
    [count] is: a bundle that cannot be created ends the loop by
    [break], and one that is created fails the assertion that follows
    it. *)
Theorem bundle_until_failure_runs_one_command :
  forall (w : world) (repr : value -> string)
         (BUNDLE_CMD success_msg : value)
         (assert_false : value -> value -> M heap unit)
         (test_cfg dir_path host_ip : value)
         (tr : list call) (h : heap),
    fails_when_true assert_false ->
    exists calls,
      snd (fst (bundle_until_failure w repr BUNDLE_CMD success_msg
                  assert_false test_cfg dir_path host_ip tr h))
      = (tr ++ calls)%list
      /\ (length calls <= 1)%nat.
Proof.
  intros w repr BUNDLE_CMD success_msg assert_false test_cfg dir_path
         host_ip tr h Hassert.
  unfold bundle_until_failure.
  unfold bind at 1, lift at 1.
  destruct (getitem_str test_cfg "count") as [count|e|];
    [|exists []; split; [simpl; rewrite app_nil_r; reflexivity|simpl; lia]
     |exists []; split; [simpl; rewrite app_nil_r; reflexivity|simpl; lia]].
  unfold bind at 1, lift at 1.
  destruct (py_range count) as [idxs|e|];
    [|exists []; split; [simpl; rewrite app_nil_r; reflexivity|simpl; lia]
     |exists []; split; [simpl; rewrite app_nil_r; reflexivity|simpl; lia]].
  apply bundle_loop_one_command. exact Hassert.
Qed.

Lemma assert_false_fails_when_true :
  fails_when_true (@Scenarios.assert_false heap).
Proof.
  intros cond msg tr st H. unfold Scenarios.assert_false. rewrite H.
  eexists. reflexivity.
Defined.

Lemma bundle_until_failure_runs_one_command_witness :
  bundle_until_failure Sample.bundle_node Sample.repr
    (VStr "sh s3_bundle_generate.sh") (VStr "generated successfully")
    Scenarios.assert_false Scenarios.test_5274 (VStr "/tmp/bundles")
    (VStr "node1") [] []
  = (Raise (PyExc (OtherException "AssertionError")
                  [VStr "S3 support bundle generated successfully"]),
     [run_remote_cmd "sh s3_bundle_generate.sh bundle_0 /tmp/bundles"
                     (VStr "node1")],
     [])
  /\ exists calls,
      snd (fst (bundle_until_failure Sample.bundle_node Sample.repr
                  (VStr "sh s3_bundle_generate.sh")
                  (VStr "generated successfully")
                  Scenarios.assert_false Scenarios.test_5274
                  (VStr "/tmp/bundles") (VStr "node1") [] []))
      = calls
      /\ (length calls <= 1)%nat.
Proof.
  split; [reflexivity|].
  apply (bundle_until_failure_runs_one_command
           Sample.bundle_node Sample.repr
           (VStr "sh s3_bundle_generate.sh") (VStr "generated successfully")
           Scenarios.assert_false Scenarios.test_5274 (VStr "/tmp/bundles")
           (VStr "node1") [] [] assert_false_fails_when_true).
Defined.

(** ** [create_remote_dir_recursive] *)

Import RemoteDir.

Lemma string_length_app (a b : string) :
  String.length (a ++ b) = (String.length a + String.length b)%nat.
Proof.
  induction a as [|c a IH]; simpl; [reflexivity|rewrite IH; reflexivity].
Qed.

Lemma list_ascii_app (a b : string) :
  list_ascii_of_string (a ++ b)
  = (list_ascii_of_string a ++ list_ascii_of_string b)%list.
Proof.
  induction a as [|c a IH]; simpl; [reflexivity|rewrite IH; reflexivity].
Qed.

(** No piece of a split contains the separator. *)
Lemma split_char_pieces (sep : ascii) (s : string) :
  forall cur,
    ~ In sep (list_ascii_of_string cur) ->
    Forall (fun t => ~ In sep (list_ascii_of_string t))
           (split_char sep s cur).
Proof.
  induction s as [|c s IH]; intros cur Hcur.
  - simpl. constructor; [exact Hcur|constructor].
  - cbn [split_char]. destruct (Ascii.eqb c sep) eqn:Hc.
    + constructor; [exact Hcur|]. apply IH. simpl. tauto.
    + apply IH. rewrite list_ascii_app. intro Hin.
      apply in_app_or in Hin. destruct Hin as [Hin|[Hin|[]]].
      * exact (Hcur Hin).
      * apply Ascii.eqb_neq in Hc. exact (Hc Hin).
Qed.

Lemma Forall_removelast {A} (P : A -> Prop) (l : list A) :
  Forall P l -> Forall P (removelast l).
Proof.
  induction 1 as [|x l Hx Hl IH]; [constructor|].
  simpl. destruct l; [constructor|]. constructor; [exact Hx|exact IH].
Qed.

Lemma prefix_slash (s : string) :
  String.prefix "/" s
  = match s with
    | String c _ => Ascii.eqb c "/"
    | EmptyString => false
    end.
Proof.
  destruct s as [|c s]; [reflexivity|].
  change (String.prefix "/" (String c s))
    with (if ascii_dec "/" c then String.prefix "" s else false).
  destruct (ascii_dec "/" c) as [<-|N].
  - destruct s; reflexivity.
  - symmetry. apply Ascii.eqb_neq. congruence.
Qed.

Lemma remote_dirs_relative (file_path : string) :
  Forall (fun d => String.prefix "/" d = false) (remote_dirs file_path).
Proof.
  unfold remote_dirs.
  assert (H : Forall (fun t => ~ In "/"%char (list_ascii_of_string t))
                     (tl (removelast (split_char "/" file_path "")))).
  { pose proof (Forall_removelast _ _
                  (split_char_pieces "/" file_path "" (fun H => H))) as H.
    destruct (removelast (split_char "/" file_path "")); [constructor|].
    simpl. inversion H. assumption. }
  eapply Forall_impl; [|exact H].
  intros d Hd. rewrite prefix_slash. destruct d as [|c d]; [reflexivity|].
  apply Ascii.eqb_neq. intros ->. apply Hd. left. reflexivity.
Qed.

Lemma os_path_join_absolute (a b : string) :
  String.prefix "/" b = true -> os_path_join a b = b.
Proof.
  intro H. unfold os_path_join. rewrite H. reflexivity.
Qed.

Lemma os_path_join_stays_absolute (a b : string) :
  String.prefix "/" a = true -> String.prefix "/" (os_path_join a b) = true.
Proof.
  intro H. unfold os_path_join.
  destruct (String.prefix "/" b) eqn:Hb; [exact Hb|].
  rewrite prefix_slash in H.
  destruct a as [|c a]; [discriminate H|].
  destruct (String.eqb (String c a) "" || ends_with_slash (String c a));
    rewrite prefix_slash; exact H.
Qed.

Lemma os_path_join_longer (a b : string) :
  b <> "" -> String.prefix "/" b = false ->
  (String.length a < String.length (os_path_join a b))%nat.
Proof.
  intros Hb Hrel. unfold os_path_join. rewrite Hrel.
  assert (0 < String.length b)%nat.
  { destruct b; [contradiction Hb; reflexivity|simpl; lia]. }
  destruct (String.eqb a "" || ends_with_slash a);
    rewrite ?string_length_app; simpl; lia.
Qed.

Lemma fold_os_path_join_grows (dirs : list string) :
  forall base,
    Forall (fun d => d <> "") dirs ->
    Forall (fun d => String.prefix "/" d = false) dirs ->
    (String.length base
     <= String.length (fold_left os_path_join dirs base))%nat.
Proof.
  induction dirs as [|d rest IH]; intros base Hne Hrel; [simpl; lia|].
  inversion Hne; inversion Hrel; subst. simpl.
  pose proof (os_path_join_longer base d) as H.
  specialize (IH (os_path_join base d)).
  assert (String.length base < String.length (os_path_join base d))%nat
    by (apply H; assumption).
  assert (String.length (os_path_join base d)
          <= String.length (fold_left os_path_join rest
                                      (os_path_join base d)))%nat
    by (apply IH; assumption).
  lia.
Qed.

Lemma parents_shorter (dirs : list string) :
  forall base p,
    Forall (fun d => d <> "") dirs ->
    Forall (fun d => String.prefix "/" d = false) dirs ->
    In p (parents dirs base) ->
    (String.length p
     < String.length (fold_left os_path_join dirs base))%nat.
Proof.
  induction dirs as [|d rest IH]; intros base p Hne Hrel Hin;
    [destruct Hin|].
  inversion Hne; inversion Hrel; subst. simpl in *.
  destruct Hin as [<-|Hin].
  - pose proof (os_path_join_longer base d).
    pose proof (fold_os_path_join_grows rest (os_path_join base d)).
    assert (String.length base < String.length (os_path_join base d))%nat
      by auto.
    assert (String.length (os_path_join base d)
            <= String.length (fold_left os_path_join rest
                                        (os_path_join base d)))%nat
      by auto.
    lia.
  - apply IH; assumption.
Qed.

(** The loop asks for the creation of [old_path] only. *)
Lemma create_dirs_creates_parents (nd : node) (dirs : list string) :
  forall base tr,
    String.prefix "/" base = true ->
    exists calls,
      snd (create_dirs nd dirs base tr) = (tr ++ calls)%list
      /\ forall p, In (create_dir_sftp p) calls -> In p (parents dirs base).
Proof.
  induction dirs as [|d rest IH]; intros base tr Habs.
  - exists []. split; [simpl; rewrite app_nil_r; reflexivity|intros p []].
  - cbn [create_dirs parents].
    rewrite (os_path_join_absolute d base Habs).
    pose proof (os_path_join_stays_absolute base d Habs) as Hnew.
    set (new_path := os_path_join base d) in *.
    unfold nbind at 1, ask at 1.
    destruct (nd tr (path_exists new_path)) as [present|e|];
      [|exists [path_exists new_path]; split;
        [reflexivity|intros p [E|[]]; discriminate E]
       |exists [path_exists new_path]; split;
        [reflexivity|intros p [E|[]]; discriminate E]].
    destruct (truthy present); cbn [negb].
    + destruct (IH new_path (tr ++ [path_exists new_path])%list Hnew)
        as (calls & E & H).
      exists (path_exists new_path :: calls). split.
      * rewrite E, <- app_assoc. reflexivity.
      * intros p [X|X]; [discriminate X|right; exact (H p X)].
    + unfold nbind at 1, ask at 1.
      destruct (nd _ (create_dir_sftp base)) as [resp|e|];
        [|exists [path_exists new_path; create_dir_sftp base]; split;
          [simpl; rewrite <- app_assoc; reflexivity
          |intros p [X|[X|[]]]; [discriminate X|injection X as <-; left;
                                                reflexivity]]
         |exists [path_exists new_path; create_dir_sftp base]; split;
          [simpl; rewrite <- app_assoc; reflexivity
          |intros p [X|[X|[]]]; [discriminate X|injection X as <-; left;
                                                reflexivity]]].
      destruct (truthy resp); cbn [negb].
      * destruct (IH new_path
                     ((tr ++ [path_exists new_path])
                        ++ [create_dir_sftp base])%list Hnew)
          as (calls & E & H).
        exists (path_exists new_path :: create_dir_sftp base :: calls).
        split.
        -- rewrite E, <- !app_assoc. reflexivity.
        -- intros p [X|[X|X]];
             [discriminate X|injection X as <-; left; reflexivity
             |right; exact (H p X)].
      * exists [path_exists new_path; create_dir_sftp base]. split.
        -- simpl. rewrite <- app_assoc. reflexivity.
        -- intros p [X|[X|[]]];
             [discriminate X|injection X as <-; left; reflexivity].
Qed.

(** X21: for a file path without empty components,
    [create_remote_dir_recursive] never asks the node to create the
    directory that is to hold the file.  What it passes to
    [create_dir_sftp] is [os.path.join(directory, old_path)], and
    [old_path] is absolute, so the join is [old_path]: the parent of the
    directory found missing. *)
Theorem create_remote_dir_recursive_skips_target :
  forall (nd : node) (file_path : string) (tr : list node_call),
    Forall (fun d => d <> "") (remote_dirs file_path) ->
    exists calls,
      snd (create_remote_dir_recursive nd file_path tr) = (tr ++ calls)%list
      /\ ~ In (create_dir_sftp (target_dir (remote_dirs file_path))) calls.
Proof.
  intros nd file_path tr Hne.
  unfold create_remote_dir_recursive.
  unfold nbind at 1, ask at 1.
  destruct (nd tr (path_exists file_path)) as [res|e|];
    [|exists [path_exists file_path]; split;
      [reflexivity|intros [E|[]]; discriminate E]
     |exists [path_exists file_path]; split;
      [reflexivity|intros [E|[]]; discriminate E]].
  destruct (truthy res); cbn [negb];
    [exists [path_exists file_path]; split;
     [reflexivity|intros [E|[]]; discriminate E]|].
  destruct (create_dirs_creates_parents
              nd (remote_dirs file_path) "/"
              (tr ++ [path_exists file_path])%list eq_refl)
    as (calls & E & H).
  exists (path_exists file_path :: calls). split.
  - rewrite E, <- app_assoc. reflexivity.
  - intros [X|X]; [discriminate X|].
    apply H in X.
    pose proof (parents_shorter _ _ _ Hne (remote_dirs_relative file_path) X)
      as Hlt.
    unfold target_dir in Hlt. lia.
Qed.

Lemma create_remote_dir_recursive_skips_target_witness :
  create_remote_dir_recursive Scenarios.bare_node "/var/log/app.log" []
  = (Ok (VBool true),
     [path_exists "/var/log/app.log";
      path_exists "/var"; create_dir_sftp "/";
      path_exists "/var/log"; create_dir_sftp "/var"])
  /\ exists calls,
      snd (create_remote_dir_recursive Scenarios.bare_node
                                       "/var/log/app.log" [])
      = calls
      /\ ~ In (create_dir_sftp "/var/log") calls.
Proof.
  split; [reflexivity|].
  apply (create_remote_dir_recursive_skips_target
           Scenarios.bare_node "/var/log/app.log" []).
  repeat constructor; discriminate.
Defined.

(** ** [edit_s3_account_user_invalid_password] *)

(** X22: [edit_s3_account_user_invalid_password] hands the payload it
    was given to the request as it is: every request of a run is a PATCH
    on [<s3accounts_endpoint>/<username>] whose data is that payload
    (where [edit_s3_account_user] looks the payload up by its type). *)
Theorem edit_invalid_password_sends_payload_as_given :
  forall (w : world) (ct_args : CTError -> value -> list value)
         (repr : value -> string) (config ep username payload : value)
         (login_as : option string) (tr : list call) (st : self),
    getitem_str config "s3accounts_endpoint" = Ok ep ->
    exists calls,
      snd (fst (edit_s3_account_user_invalid_password
                  w ct_args repr config username payload login_as tr st))
      = (tr ++ calls)%list
      /\ forall v e d h,
          In (rest_call v e d h) calls ->
          v = "patch"
          /\ e = VStr (py_str repr ep ++ "/" ++ py_str repr username)
          /\ d = Some payload.
Proof.
  intros w ct_args repr config ep username payload login_as tr st Hep.
  unfold edit_s3_account_user_invalid_password, authenticate_and_login.
  unfold bind at 1, ext at 1.
  destruct (w tr (rest_login login_as)) as [hdrs|e|];
    [|exists [rest_login login_as]; split;
      [reflexivity|intros v e' d h [E|[]]; discriminate E]
     |exists [rest_login login_as]; split;
      [reflexivity|intros v e' d h [E|[]]; discriminate E]].
  unfold bind at 1, set_headers. unfold bind at 1, get at 1, put at 1.
  unfold except_BaseException, try_except.
  unfold bind at 1. rewrite (user_endpoint_run repr config ep username _ _ Hep).
  unfold bind at 1, get at 1. unfold bind, ext, ret.
  cbn [headers].
  set (request := rest_call "patch"
                    (VStr (py_str repr ep ++ "/" ++ py_str repr username))
                    (Some payload) hdrs).
  exists [rest_login login_as; request].
  split.
  - destruct (w _ request) as [r|e|];
      [| rewrite raise_CTException_run |]; simpl;
      rewrite <- app_assoc; reflexivity.
  - intros v e d h [E|[E|[]]]; [discriminate E|].
    unfold request in E. injection E as <- <- <- _.
    split; [reflexivity|split; reflexivity].
Qed.

Lemma edit_invalid_password_sends_payload_as_given_witness :
  snd (fst (edit_s3_account_user_invalid_password
              Scenarios.rejects_edit Sample.ct_args Sample.repr
              Sample.config (VStr "alice")
              (VDict [("password", VStr "x")]) None [] (init VNone)))
  = [rest_login None;
     rest_call "patch" (VStr "/api/v1/s3_accounts/alice")
               (Some (VDict [("password", VStr "x")])) Sample.auth_headers]
  /\ exists calls,
      snd (fst (edit_s3_account_user_invalid_password
                  Scenarios.rejects_edit Sample.ct_args Sample.repr
                  Sample.config (VStr "alice")
                  (VDict [("password", VStr "x")]) None [] (init VNone)))
      = calls
      /\ forall v e d h,
          In (rest_call v e d h) calls ->
          v = "patch"
          /\ e = VStr "/api/v1/s3_accounts/alice"
          /\ d = Some (VDict [("password", VStr "x")]).
Proof.
  split; [reflexivity|].
  apply (edit_invalid_password_sends_payload_as_given
           Scenarios.rejects_edit Sample.ct_args Sample.repr Sample.config
           (VStr "/api/v1/s3_accounts") (VStr "alice")
           (VDict [("password", VStr "x")]) None [] (init VNone) eq_refl).
Defined.
